(** * BookStore.API: book catalog, ownership checks, uploads and login

    A shallow embedding of the ASP.NET Core backend of the bookstore
    (BookRepository, BooksController, FilesController, AuthController and
    the DTO validation attributes) and of the statistics computed by the
    writers' dashboard.  The persisted state is the list of rows of the
    [users] and [books] tables, in insertion order; a Guid is a [nat];
    a C# [decimal] is a [Q]; a [DateTime] is a tick count ([nat]). *)

From Stdlib Require Import String Ascii List Bool Arith ZArith QArith Lia DecimalString.
From Stdlib Require Import Sorting Permutation.
From Stdlib Require PrimFloat.
Import ListNotations.
Open Scope string_scope.
Open Scope nat_scope.

(* ------------------------------------------------------------------ *)
(** ** Strings: the pieces of System.String the code uses *)

Definition Guid := nat.
Definition DateTime := nat.

(** [char.ToLowerInvariant] on the ASCII range. *)
Definition char_to_lower (c : ascii) : ascii :=
  let n := nat_of_ascii c in
  if ((65 <=? n) && (n <=? 90))%nat then ascii_of_nat (n + 32)%nat else c.

(** [string.ToLower] / [string.ToLowerInvariant]. *)
Fixpoint ToLower (s : string) : string :=
  match s with
  | EmptyString => EmptyString
  | String c r => String (char_to_lower c) (ToLower r)
  end.

(** [string.Contains(sub)]: [sub] occurs at some position of [s]. *)
Fixpoint Contains (s sub : string) : bool :=
  prefix sub s ||
  match s with
  | EmptyString => false
  | String _ r => Contains r sub
  end.

(** [string.IsNullOrEmpty]. *)
Definition IsNullOrEmpty (s : option string) : bool :=
  match s with
  | None => true
  | Some EmptyString => true
  | Some _ => false
  end.

(** [char.IsWhiteSpace] on the ASCII range. *)
Definition IsWhiteSpace (c : ascii) : bool :=
  let n := nat_of_ascii c in
  ((n =? 32) || ((9 <=? n) && (n <=? 13)))%nat.

(** [string.IsNullOrWhiteSpace] on a non-null string. *)
Fixpoint IsWhiteSpaceOnly (s : string) : bool :=
  match s with
  | EmptyString => true
  | String c r => IsWhiteSpace c && IsWhiteSpaceOnly r
  end.

(* ------------------------------------------------------------------ *)
(** ** Models/User.cs and Models/Book.cs *)

Module User.
Record t := mk {
  Id : Guid;
  Email : string;
  PasswordHash : string;
  FullName : option string;
  CreatedAt : DateTime;
  UpdatedAt : DateTime
}.
End User.

Module Book.
Record t := mk {
  Id : Guid;
  Name : string;
  Category : string;
  Price : Q;
  Description : string;
  UserId : Guid;
  CreatedAt : DateTime;
  UpdatedAt : DateTime;
  ImageUrl : option string;
  FileUrl : option string;
  FileName : option string;
  FileSize : option Z
}.
End Book.

(** The persisted state of [BookStoreContext]: the rows of both tables. *)
Record Db := mkDb {
  Users : list User.t;
  Books : list Book.t
}.

(** Column [price] is declared [decimal(10,2)] ([TypeName] and
    [HasPrecision(10, 2)]); PostgreSQL stores a [numeric(10,2)] value
    rounded half away from zero to two fraction digits. *)
Definition numeric_10_2 (q : Q) : Q :=
  let x := (100 * Qnum q)%Z in
  let d := Zpos (Qden q) in
  let r := ((2 * Z.abs x + d) / (2 * d))%Z in
  Qmake (Z.sgn x * r) 100.

(* ------------------------------------------------------------------ *)
(** ** DTOs/BookDTOs.cs *)

Module BookFiltersDto.
Record t := mk {
  Search : option string;
  Category : option string;
  MinPrice : option Q;
  MaxPrice : option Q;
  Page : Z;
  PageSize : Z
}.
(** The object bound by [[FromQuery]] from an empty query string. *)
Definition default : t := mk None None None None 1 20.
End BookFiltersDto.

Module UserDto.
Record t := mk {
  Id : Guid;
  Email : string;
  FullName : option string;
  CreatedAt : DateTime
}.
End UserDto.

Module BookDto.
Record t := mk {
  Id : Guid;
  Name : string;
  Category : string;
  Price : Q;
  Description : string;
  UserId : Guid;
  CreatedAt : DateTime;
  UpdatedAt : DateTime;
  ImageUrl : option string;
  FileUrl : option string;
  FileName : option string;
  FileSize : option Z;
  User : option UserDto.t
}.
End BookDto.

(** [CreateBookDto] and [UpdateBookDto] have the same fields and the same
    validation attributes. *)
Module BookInputDto.
Record t := mk {
  Name : string;
  Category : string;
  Price : Q;
  Description : string;
  ImageUrl : option string;
  FileUrl : option string;
  FileName : option string;
  FileSize : option Z
}.
End BookInputDto.

(* ------------------------------------------------------------------ *)
(** ** Repositories/BookRepository.cs *)

Module BookRepository.

(** [.Include(b => b.User)]: the owner row joined on [UserId]. *)
Definition find_user (db : Db) (uid : Guid) : option User.t :=
  find (fun u => User.Id u =? uid) (Users db).

(** The [Where] clauses shared by [GetAllAsync] and [GetByUserIdAsync]. *)
Definition apply_filters (filters : option BookFiltersDto.t)
    (query : list Book.t) : list Book.t :=
  match filters with
  | None => query
  | Some f =>
      let query :=
        match BookFiltersDto.Search f with
        | Some s =>
            if IsNullOrEmpty (Some s) then query
            else
              let searchLower := ToLower s in
              filter (fun b =>
                Contains (ToLower (Book.Name b)) searchLower ||
                Contains (ToLower (Book.Description b)) searchLower) query
        | None => query
        end in
      let query :=
        match BookFiltersDto.Category f with
        | Some c =>
            if IsNullOrEmpty (Some c) then query
            else filter (fun b => String.eqb (Book.Category b) c) query
        | None => query
        end in
      let query :=
        match BookFiltersDto.MinPrice f with
        | Some m => filter (fun b => Qle_bool m (Book.Price b)) query
        | None => query
        end in
      match BookFiltersDto.MaxPrice f with
      | Some m => filter (fun b => Qle_bool (Book.Price b) m) query
      | None => query
      end
  end.

(** [.OrderByDescending(b => b.CreatedAt)]: a stable sort, built by
    inserting each row after the rows already placed with a creation
    time at least as late. *)
Fixpoint insert_desc (b : Book.t) (l : list Book.t) : list Book.t :=
  match l with
  | [] => [b]
  | x :: r =>
      if Book.CreatedAt x <? Book.CreatedAt b then b :: x :: r
      else x :: insert_desc b r
  end.

Definition OrderByDescending (l : list Book.t) : list Book.t :=
  fold_left (fun acc b => insert_desc b acc) l [].

(** The query result, each row paired with its included owner. *)
Definition include_user (db : Db) (l : list Book.t)
    : list (Book.t * option User.t) :=
  map (fun b => (b, find_user db (Book.UserId b))) l.

Definition GetAllAsync (db : Db) (filters : option BookFiltersDto.t)
    : list (Book.t * option User.t) :=
  include_user db (OrderByDescending (apply_filters filters (Books db))).

Definition GetByUserIdAsync (db : Db) (userId : Guid)
    (filters : option BookFiltersDto.t) : list (Book.t * option User.t) :=
  let query := filter (fun b => Book.UserId b =? userId) (Books db) in
  include_user db (OrderByDescending (apply_filters filters query)).

(** [FirstOrDefaultAsync(b => b.Id == id)]. *)
Definition GetByIdAsync (db : Db) (id : Guid)
    : option (Book.t * option User.t) :=
  match find (fun b => Book.Id b =? id) (Books db) with
  | Some b => Some (b, find_user db (Book.UserId b))
  | None => None
  end.

Definition ExistsAsync (db : Db) (id userId : Guid) : bool :=
  existsb (fun b => (Book.Id b =? id) && (Book.UserId b =? userId)) (Books db).

(** [_context.Books.Remove(book); SaveChangesAsync()]: the row with the
    book's key is deleted. *)
Definition remove_row (db : Db) (book : Book.t) : Db :=
  mkDb (Users db) (filter (fun b => negb (Book.Id b =? Book.Id book)) (Books db)).

Definition DeleteAsync (db : Db) (id userId : Guid) : bool * Db :=
  match find (fun b => (Book.Id b =? id) && (Book.UserId b =? userId)) (Books db) with
  | None => (false, db)
  | Some book => (true, remove_row db book)
  end.

End BookRepository.

(** [_context.SaveChangesAsync()] for one added or modified book:
    [UpdateTimestamps] sets [UpdatedAt] (and [CreatedAt] on insert) and the
    row is written through the [decimal(10,2)] price column.  The entity
    object tracked by the context keeps the timestamps but not the
    rounding. *)
Definition stamp (now : DateTime) (added : bool) (b : Book.t) : Book.t :=
  Book.mk (Book.Id b) (Book.Name b) (Book.Category b) (Book.Price b)
    (Book.Description b) (Book.UserId b)
    (if added then now else Book.CreatedAt b) now
    (Book.ImageUrl b) (Book.FileUrl b) (Book.FileName b) (Book.FileSize b).

Definition stored_row (b : Book.t) : Book.t :=
  Book.mk (Book.Id b) (Book.Name b) (Book.Category b)
    (numeric_10_2 (Book.Price b))
    (Book.Description b) (Book.UserId b) (Book.CreatedAt b) (Book.UpdatedAt b)
    (Book.ImageUrl b) (Book.FileUrl b) (Book.FileName b) (Book.FileSize b).

Module BookRepositoryWrite.
Import BookRepository.

(** [CreateAsync]: [Add] then [SaveChangesAsync]; an insert whose key is
    already taken fails in the store ([None], the exception). The result
    is the tracked entity, which [GetByIdAsync] returns from the context. *)
Definition CreateAsync (db : Db) (now : DateTime) (book : Book.t)
    : option (Book.t * Db) :=
  if existsb (fun b => Book.Id b =? Book.Id book) (Books db) then None
  else
    let tracked := stamp now true book in
    Some (tracked, mkDb (Users db) (app (Books db) [stored_row tracked])).

(** [UpdateAsync]: [Update] then [SaveChangesAsync]: the row with the
    book's key is overwritten. *)
Definition UpdateAsync (db : Db) (now : DateTime) (book : Book.t)
    : Book.t * Db :=
  let tracked := stamp now false book in
  (tracked,
   mkDb (Users db)
     (map (fun b => if Book.Id b =? Book.Id book then stored_row tracked else b)
        (Books db))).

End BookRepositoryWrite.

(* ------------------------------------------------------------------ *)
(** ** Controllers/BooksController.cs *)

Inductive ActionResult (A : Type) : Type :=
| Ok (value : A)
| CreatedAtAction (value : A)
| NoContent
| NotFound (message : string)
| BadRequest (message : string)
| StatusCode500 (message : string).
Arguments Ok {A}.
Arguments CreatedAtAction {A}.
Arguments NoContent {A}.
Arguments NotFound {A}.
Arguments BadRequest {A}.
Arguments StatusCode500 {A}.

Module BooksController.
Import BookRepository BookRepositoryWrite.

Definition MapToDto (entry : Book.t * option User.t) : BookDto.t :=
  let (book, user) := entry in
  BookDto.mk (Book.Id book) (Book.Name book) (Book.Category book)
    (Book.Price book) (Book.Description book) (Book.UserId book)
    (Book.CreatedAt book) (Book.UpdatedAt book) (Book.ImageUrl book)
    (Book.FileUrl book) (Book.FileName book) (Book.FileSize book)
    (match user with
     | Some u => Some (UserDto.mk (User.Id u) (User.Email u)
                         (User.FullName u) (User.CreatedAt u))
     | None => None
     end).

(** [GET api/books]: no [[Authorize]]. *)
Definition GetAllBooks (db : Db) (filters : BookFiltersDto.t)
    : ActionResult (list BookDto.t) :=
  Ok (map MapToDto (GetAllAsync db (Some filters))).

(** [GET api/books/my-books], [[Authorize]]. *)
Definition GetMyBooks (db : Db) (userId : Guid) (filters : BookFiltersDto.t)
    : ActionResult (list BookDto.t) :=
  Ok (map MapToDto (GetByUserIdAsync db userId (Some filters))).

(** [GET api/books/{id}]: no [[Authorize]]. *)
Definition GetBook (db : Db) (id : Guid) : ActionResult BookDto.t :=
  match GetByIdAsync db id with
  | None => NotFound "Book not found"
  | Some book => Ok (MapToDto book)
  end.

(** [POST api/books], [[Authorize]]; [newId] is the [Guid.NewGuid()]
    of the entity initialiser. *)
Definition CreateBook (db : Db) (now : DateTime) (newId userId : Guid)
    (createBookDto : BookInputDto.t) : ActionResult BookDto.t * Db :=
  let book :=
    Book.mk newId (BookInputDto.Name createBookDto)
      (BookInputDto.Category createBookDto) (BookInputDto.Price createBookDto)
      (BookInputDto.Description createBookDto) userId now now
      (BookInputDto.ImageUrl createBookDto) (BookInputDto.FileUrl createBookDto)
      (BookInputDto.FileName createBookDto) (BookInputDto.FileSize createBookDto) in
  match CreateAsync db now book with
  | None => (StatusCode500 "An error occurred while creating the book", db)
  | Some (createdBook, db') =>
      (CreatedAtAction (MapToDto (createdBook, find_user db' userId)), db')
  end.

(** [PUT api/books/{id}], [[Authorize]]. *)
Definition UpdateBook (db : Db) (now : DateTime) (userId id : Guid)
    (updateBookDto : BookInputDto.t) : ActionResult BookDto.t * Db :=
  if negb (ExistsAsync db id userId) then
    (NotFound "Book not found or you don't have permission to update it", db)
  else
    match GetByIdAsync db id with
    | None => (NotFound "Book not found", db)
    | Some (existingBook, user) =>
        let book :=
          Book.mk (Book.Id existingBook) (BookInputDto.Name updateBookDto)
            (BookInputDto.Category updateBookDto)
            (BookInputDto.Price updateBookDto)
            (BookInputDto.Description updateBookDto)
            (Book.UserId existingBook) (Book.CreatedAt existingBook)
            (Book.UpdatedAt existingBook)
            (BookInputDto.ImageUrl updateBookDto)
            (BookInputDto.FileUrl updateBookDto)
            (BookInputDto.FileName updateBookDto)
            (BookInputDto.FileSize updateBookDto) in
        let (updatedBook, db') := UpdateAsync db now book in
        (Ok (MapToDto (updatedBook, user)), db')
    end.

(** [DELETE api/books/{id}], [[Authorize]]. *)
Definition DeleteBook (db : Db) (userId id : Guid) : ActionResult unit * Db :=
  let (deleted, db') := DeleteAsync db id userId in
  if negb deleted then
    (NotFound "Book not found or you don't have permission to delete it", db')
  else (NoContent, db').

End BooksController.

(* ------------------------------------------------------------------ *)
(** ** Model validation of [[ApiController]] actions

    The data annotations of [CreateBookDto] / [UpdateBookDto]:
    [[Required]] (a string that is not empty or white space only),
    [[MaxLength(n)]] and [[Range(0, 99999.99)]].  An invalid model is
    answered with a 400 before the action body runs. *)

Module Validation.

Definition Required (s : string) : bool := negb (IsWhiteSpaceOnly s).

Definition MaxLength (n : nat) (s : string) : bool := String.length s <=? n.

Definition Range (lo hi : Q) (v : Q) : bool := Qle_bool lo v && Qle_bool v hi.

Definition IsValid (dto : BookInputDto.t) : bool :=
  Required (BookInputDto.Name dto) && MaxLength 255 (BookInputDto.Name dto) &&
  Required (BookInputDto.Category dto) &&
  MaxLength 100 (BookInputDto.Category dto) &&
  Range 0 (9999999 # 100) (BookInputDto.Price dto) &&
  Required (BookInputDto.Description dto) &&
  MaxLength 1000 (BookInputDto.Description dto).

Definition validation_problem : string := "One or more validation errors occurred.".

(** The filter that runs before an action: the action (and any write it
    makes) only runs on a valid model. *)
Definition invoke {A} (dto : BookInputDto.t)
    (action : Db -> ActionResult A * Db) (db : Db) : ActionResult A * Db :=
  if IsValid dto then action db else (BadRequest validation_problem, db).

Definition PostBook (db : Db) (now : DateTime) (newId userId : Guid)
    (dto : BookInputDto.t) : ActionResult BookDto.t * Db :=
  invoke dto (fun db => BooksController.CreateBook db now newId userId dto) db.

Definition PutBook (db : Db) (now : DateTime) (userId id : Guid)
    (dto : BookInputDto.t) : ActionResult BookDto.t * Db :=
  invoke dto (fun db => BooksController.UpdateBook db now userId id dto) db.

End Validation.

(** The actions of [BooksController] and whether they carry [[Authorize]]
    (the controller class itself has none). *)
Inductive BooksAction := GetAllBooksA | GetMyBooksA | GetBookA | CreateBookA
  | UpdateBookA | DeleteBookA | GetCategoriesA.

Definition requires_authorization (a : BooksAction) : bool :=
  match a with
  | GetAllBooksA | GetBookA | GetCategoriesA => false
  | GetMyBooksA | CreateBookA | UpdateBookA | DeleteBookA => true
  end.

(* ------------------------------------------------------------------ *)
(** ** Controllers/FilesController.cs *)

Module FilesController.

Record IFormFile := mkFile { Length : Z; FileName : string }.

(** The files written under [wwwroot]: path and byte count. *)
Definition Storage := list (string * Z).

Record UploadResult := mkUpload { url : string; fileName : string; size : Z }.

Definition string_of_Z (z : Z) : string :=
  DecimalString.NilZero.string_of_int (Z.to_int z).

(** [Path.GetExtension] (Unix separators): the text from the last ['.']
    after the last ['/'], or empty when there is none or it ends the name. *)
Fixpoint ext_rev (rev_chars : list ascii) (acc : string) : string :=
  match rev_chars with
  | [] => ""
  | c :: r =>
      if Ascii.eqb c "." then
        match acc with EmptyString => "" | _ => String "." acc end
      else if Ascii.eqb c "/" then ""
      else ext_rev r (String c acc)
  end.

Definition GetExtension (path : string) : string :=
  ext_rev (rev (list_ascii_of_string path)) "".

Definition allowedImageExtensions : list string :=
  [".jpg"; ".jpeg"; ".png"; ".gif"; ".webp"].
Definition allowedBookExtensions : list string :=
  [".pdf"; ".epub"; ".docx"; ".doc"; ".txt"; ".mobi"; ".azw3"].

Definition MaxImageSize : Z := 5 * 1024 * 1024.
Definition MaxBookSize : Z := 100 * 1024 * 1024.

(** What differs between [UploadImage] and [UploadBookFile]. *)
Record Kind := mkKind {
  allowed : list string;
  maxSize : Z;
  subdir : string;
  typeMessage : string;
  errorMessage : string
}.

Definition ImageKind : Kind :=
  mkKind allowedImageExtensions MaxImageSize "images"
    "Invalid file type. Only image files are allowed."
    "An error occurred while uploading the image".
Definition BookKind : Kind :=
  mkKind allowedBookExtensions MaxBookSize "books"
    "Invalid file type. Only book files (PDF, EPUB, DOCX, etc.) are allowed."
    "An error occurred while uploading the book file".

Definition no_file_message : string := "No file provided".

Definition size_message (k : Kind) : string :=
  "File size exceeds maximum allowed size of " ++
  string_of_Z (maxSize k / (1024 * 1024)) ++ "MB".

Definition contains_string (l : list string) (s : string) : bool :=
  existsb (String.eqb s) l.

(** [Path.IsPathRooted] and a trailing separator, on Unix. *)
Definition is_rooted (s : string) : bool :=
  match s with String c _ => Ascii.eqb c "/" | EmptyString => false end.

Definition ends_with_sep (s : string) : bool :=
  match rev (list_ascii_of_string s) with c :: _ => Ascii.eqb c "/" | [] => false end.

(** [Path.Combine(a, b)]: an empty part is skipped, a rooted part restarts
    the path, and a separator is inserted when [a] does not end in one. *)
Definition Combine2 (a b : string) : string :=
  match b with
  | EmptyString => a
  | _ =>
      if is_rooted b then b
      else match a with
           | EmptyString => b
           | _ => if ends_with_sep a then a ++ b else a ++ "/" ++ b
           end
  end.

Definition PathCombine (parts : list string) : string := fold_left Combine2 parts "".

(** [File.Exists] and [File.Delete]. *)
Definition FileExists (st : Storage) (path : string) : bool :=
  existsb (fun e => String.eqb (fst e) path) st.

Definition FileDelete (st : Storage) (path : string) : Storage :=
  filter (fun e => negb (String.eqb (fst e) path)) st.

(** The body shared by [UploadImage] and [UploadBookFile].  [userId] is
    the outcome of [GetCurrentUserId] ([None]: it throws); [newGuid] and
    [timestamp] are [Guid.NewGuid()] and [DateTime.UtcNow] formatted;
    [origin] is [Request.Scheme://Request.Host].  The file is written at
    [Path.Combine(Path.Combine(webRoot, "uploads", subdir), fileName)]
    with [FileMode.Create], which replaces a file already there. *)
Definition Upload (k : Kind) (webRoot origin : string)
    (file : option IFormFile) (bookId : option string)
    (userId : option Guid) (newGuid timestamp : string) (st : Storage)
    : ActionResult UploadResult * Storage :=
  match file with
  | None => (BadRequest no_file_message, st)
  | Some f =>
      if (Length f =? 0)%Z then (BadRequest no_file_message, st)
      else if (Length f >? maxSize k)%Z then (BadRequest (size_message k), st)
      else
        let fileExtension := ToLower (GetExtension (FileName f)) in
        if negb (contains_string (allowed k) fileExtension) then
          (BadRequest (typeMessage k), st)
        else
          match userId with
          | None => (StatusCode500 (errorMessage k), st)
          | Some _ =>
              let fileName :=
                match bookId with Some b => b | None => newGuid end
                ++ "-" ++ timestamp ++ fileExtension in
              let uploadsDir := PathCombine [webRoot; "uploads"; subdir k] in
              let filePath := Combine2 uploadsDir fileName in
              (Ok (mkUpload
                     (origin ++ "/uploads/" ++ subdir k ++ "/" ++ fileName)
                     (FileName f) (Length f)),
               app (FileDelete st filePath) [(filePath, Length f)])
          end
  end.

Definition UploadImage := Upload ImageKind.
Definition UploadBookFile := Upload BookKind.

End FilesController.

(* ------------------------------------------------------------------ *)
(** ** Controllers/AuthController.cs: [Login]

    [IUserRepository.GetByEmailAsync], [BCrypt.Verify] and
    [ITokenService.GenerateToken] are left abstract: the properties below
    hold for every user store, hash check and token service. *)

Module AuthController.

Record AuthResponseDto := mkAuth { Token : string; AuthUser : UserDto.t }.

Section Login.
Variable GetByEmailAsync : string -> option User.t.
Variable Verify : string -> string -> bool.
Variable GenerateToken : User.t -> string.

Definition invalid_credentials : string := "Invalid email or password".

Definition Login (email password : string) : ActionResult AuthResponseDto :=
  match GetByEmailAsync email with
  | None => BadRequest invalid_credentials
  | Some user =>
      if negb (Verify password (User.PasswordHash user)) then
        BadRequest invalid_credentials
      else
        Ok (mkAuth (GenerateToken user)
              (UserDto.mk (User.Id user) (User.Email user)
                 (User.FullName user) (User.CreatedAt user)))
  end.

(** The two failure conditions of the claim. *)
Definition login_rejected (email password : string) : Prop :=
  match GetByEmailAsync email with
  | None => True
  | Some user => Verify password (User.PasswordHash user) = false
  end.
End Login.

End AuthController.

(* ------------------------------------------------------------------ *)
(** ** src/components/Dashboard.tsx: [loadStats] *)

Module Dashboard.

(** A JavaScript number is an IEEE 754 binary64 value: [PrimFloat.float]. *)

Fixpoint float_of_pos (p : positive) : PrimFloat.float :=
  match p with
  | xH => PrimFloat.one
  | xO p => let f := float_of_pos p in PrimFloat.add f f
  | xI p => let f := float_of_pos p in PrimFloat.add (PrimFloat.add f f) PrimFloat.one
  end.

(** [a / b] rounded to the nearest integer, ties to even ([a >= 0], [b > 0]). *)
Definition round_div (a b : Z) : Z :=
  let (qt, r) := Z.div_eucl a b in
  match Z.compare (2 * r) b with
  | Lt => qt
  | Gt => (qt + 1)%Z
  | Eq => if Z.even qt then qt else (qt + 1)%Z
  end.

Fixpoint mul_pow2 (f : PrimFloat.float) (n : nat) : PrimFloat.float :=
  match n with O => f | S n => mul_pow2 (PrimFloat.add f f) n end.

Definition two : PrimFloat.float := PrimFloat.add PrimFloat.one PrimFloat.one.

Fixpoint div_pow2 (f : PrimFloat.float) (n : nat) : PrimFloat.float :=
  match n with O => f | S n => div_pow2 (PrimFloat.div f two) n end.

(** The number [JSON.parse] gives for the decimal the API serialises: the
    binary64 value nearest to it, ties to even.  The magnitude is scaled
    by [2^k] into [[2^52, 2^53)], rounded to an integer [m] (at most
    [2^53], so exact as a float), and scaled back, which is exact outside
    the subnormal range. *)
Definition to_number (q : Q) : PrimFloat.float :=
  match Qnum q with
  | Z0 => PrimFloat.zero
  | Zpos n | Zneg n =>
      let d := Zpos (Qden q) in
      let n := Zpos n in
      let ratio k := if (0 <=? k)%Z then ((n * 2 ^ k)%Z, d) else (n, (d * 2 ^ (- k))%Z) in
      let k0 := (52 - (Z.log2 n - Z.log2 d))%Z in
      let k := let (a, b) := ratio k0 in if (a <? 2 ^ 52 * b)%Z then (k0 + 1)%Z else k0 in
      let m := let (a, b) := ratio k in round_div a b in
      let f := match m with Zpos p => float_of_pos p | _ => PrimFloat.zero end in
      let f := if (0 <=? k)%Z then div_pow2 f (Z.to_nat k) else mul_pow2 f (Z.to_nat (- k)) in
      match Qnum q with Zneg _ => PrimFloat.opp f | _ => f end
  end.

Record Stats := mkStats {
  totalBooks : nat; totalValue : PrimFloat.float; categoriesCount : nat
}.

(** [new Set(xs)]: first occurrences, in order. *)
Definition set_of (xs : list string) : list string :=
  fold_left (fun acc x => if existsb (String.eqb x) acc then acc else app acc [x])
    xs [].

(** [apiService.getMyBooks()] without filters: an empty query string,
    bound to the default [BookFiltersDto]. *)
Definition getMyBooks (db : Db) (userId : Guid) : list BookDto.t :=
  match BooksController.GetMyBooks db userId BookFiltersDto.default with
  | Ok books => books
  | _ => []
  end.

Definition loadStats (db : Db) (userId : Guid) : Stats :=
  let allBooks := getMyBooks db userId in
  let totalBooks := length allBooks in
  let totalValue :=
    fold_left (fun sum book => PrimFloat.add sum (to_number (BookDto.Price book)))
      allBooks PrimFloat.zero in
  let categoriesCount := length (set_of (map BookDto.Category allBooks)) in
  mkStats totalBooks totalValue categoriesCount.

End Dashboard.

(* ------------------------------------------------------------------ *)
(** ** The filter predicates, as the claims phrase them *)

Module FilterSpec.

Definition fsearch (f : option BookFiltersDto.t) : option string :=
  match f with Some f => BookFiltersDto.Search f | None => None end.
Definition fcategory (f : option BookFiltersDto.t) : option string :=
  match f with Some f => BookFiltersDto.Category f | None => None end.
Definition fmin (f : option BookFiltersDto.t) : option Q :=
  match f with Some f => BookFiltersDto.MinPrice f | None => None end.
Definition fmax (f : option BookFiltersDto.t) : option Q :=
  match f with Some f => BookFiltersDto.MaxPrice f | None => None end.

Definition search_matches (s : string) (b : Book.t) : Prop :=
  Contains (ToLower (Book.Name b)) (ToLower s) = true \/
  Contains (ToLower (Book.Description b)) (ToLower s) = true.

(** Every specified field is a constraint; an absent ([None]) field is none. *)
Definition satisfies (f : option BookFiltersDto.t) (b : Book.t) : Prop :=
  match fsearch f with Some s => search_matches s b | None => True end /\
  match fcategory f with Some c => Book.Category b = c | None => True end /\
  match fmin f with Some m => (m <= Book.Price b)%Q | None => True end /\
  match fmax f with Some m => (Book.Price b <= m)%Q | None => True end.

(** As [satisfies], with a null or empty search or category imposing no
    constraint. *)
Definition given (s : option string) : option string :=
  if IsNullOrEmpty s then None else s.

Definition satisfies_nonempty (f : option BookFiltersDto.t) (b : Book.t) : Prop :=
  match given (fsearch f) with Some s => search_matches s b | None => True end /\
  match given (fcategory f) with Some c => Book.Category b = c | None => True end /\
  match fmin f with Some m => (m <= Book.Price b)%Q | None => True end /\
  match fmax f with Some m => (Book.Price b <= m)%Q | None => True end.

(** [f'] is [f] with some predicates dropped or price bounds loosened. *)
Definition relaxes (f' f : option BookFiltersDto.t) : Prop :=
  (fsearch f' = None \/ fsearch f' = fsearch f) /\
  (fcategory f' = None \/ fcategory f' = fcategory f) /\
  (fmin f' = None \/ exists m' m, fmin f' = Some m' /\ fmin f = Some m /\ (m' <= m)%Q) /\
  (fmax f' = None \/ exists m' m, fmax f' = Some m' /\ fmax f = Some m /\ (m <= m')%Q).

End FilterSpec.

(* ------------------------------------------------------------------ *)
(** ** Sample rows used by the concrete checks below *)

Module Samples.
Definition alice : User.t := User.mk 1 "alice@x.com" "hash:secret1" (Some "A") 0 0.
Definition bob : User.t := User.mk 2 "bob@x.com" "hash:hunter2" None 0 0.

Definition dune : Book.t :=
  Book.mk 10 "Dune" "Fiction" (999 # 100) "Desert planet" 1 5 5
    None (Some "http://h/uploads/books/dune.pdf") (Some "dune.pdf") (Some 2048%Z).
Definition emma : Book.t :=
  Book.mk 11 "Emma" "Novel" (12 # 1) "A comedy of manners" 2 7 7
    (Some "http://h/uploads/images/emma.png") None None None.

Definition db : Db := mkDb [alice; bob] [dune; emma].

Definition pamphlet (id : Guid) (price : Q) (createdAt : DateTime) : Book.t :=
  Book.mk id "Pamphlet" "Essay" price "Short" 1 createdAt createdAt None None None None.

(** Two books of [alice] priced 0.10 and 0.20. *)
Definition cents_db : Db :=
  mkDb [alice] [pamphlet 20 (10 # 100) 1; pamphlet 21 (20 # 100) 2].

Definition empty_category_filter : BookFiltersDto.t :=
  BookFiltersDto.mk None (Some "") None None 1 20.
Definition fiction_filter : BookFiltersDto.t :=
  BookFiltersDto.mk (Some "DUNE") (Some "Fiction") (Some (5 # 1)) (Some (10 # 1)) 1 20.
Definition loose_filter : BookFiltersDto.t :=
  BookFiltersDto.mk None (Some "Fiction") (Some (1 # 1)) None 1 20.

Definition input (name category description : string) (price : Q) : BookInputDto.t :=
  BookInputDto.mk name category price description
    (Some "http://h/uploads/images/c.png") (Some "http://h/uploads/books/c.pdf")
    (Some "c.pdf") (Some 4096%Z).

Fixpoint repeat_char (n : nat) (c : ascii) : string :=
  match n with 0 => EmptyString | S n => String c (repeat_char n c) end.
End Samples.

(* ------------------------------------------------------------------ *)
(** ** Properties stated by the claims, over the definitions above *)

Module Props.

(** The row [CreateBook] persists for a fresh id. *)
Definition created_row (now : DateTime) (newId userId : Guid)
    (dto : BookInputDto.t) : Book.t :=
  Book.mk newId (BookInputDto.Name dto) (BookInputDto.Category dto)
    (numeric_10_2 (BookInputDto.Price dto)) (BookInputDto.Description dto)
    userId now now (BookInputDto.ImageUrl dto) (BookInputDto.FileUrl dto)
    (BookInputDto.FileName dto) (BookInputDto.FileSize dto).

(** The three rejections of [Upload] for kind [k], in their order, each
    leaving the storage as it was. *)
Definition rejects_in_order (k : FilesController.Kind) : Prop :=
  forall webRoot origin bookId userId newGuid timestamp (st : FilesController.Storage),
    FilesController.Upload k webRoot origin None bookId userId newGuid timestamp st
      = (BadRequest FilesController.no_file_message, st) /\
    (forall name,
      FilesController.Upload k webRoot origin (Some (FilesController.mkFile 0 name))
        bookId userId newGuid timestamp st
        = (BadRequest FilesController.no_file_message, st)) /\
    (forall f, (FilesController.Length f > FilesController.maxSize k)%Z ->
      FilesController.Upload k webRoot origin (Some f) bookId userId newGuid timestamp st
        = (BadRequest (FilesController.size_message k), st)) /\
    (forall f, (0 < FilesController.Length f <= FilesController.maxSize k)%Z ->
      ~ In (ToLower (FilesController.GetExtension (FilesController.FileName f)))
           (FilesController.allowed k) ->
      FilesController.Upload k webRoot origin (Some f) bookId userId newGuid timestamp st
        = (BadRequest (FilesController.typeMessage k), st)).

Definition sample_store (email : string) : option User.t :=
  if String.eqb email "alice@x.com" then Some Samples.alice else None.
Definition sample_verify (password hash : string) : bool :=
  String.eqb hash ("hash:" ++ password).

Definition with_description (d : string) : BookInputDto.t :=
  Samples.input "Dune" "Fiction" d (999 # 100).

(** A create or update input breaking one of the rules of C9. *)
Definition violates (dto : BookInputDto.t) : Prop :=
  Validation.Required (BookInputDto.Name dto) = false \/
  Validation.MaxLength 255 (BookInputDto.Name dto) = false \/
  Validation.Required (BookInputDto.Category dto) = false \/
  Validation.MaxLength 100 (BookInputDto.Category dto) = false \/
  Validation.Required (BookInputDto.Description dto) = false \/
  Validation.MaxLength 1000 (BookInputDto.Description dto) = false.

(** [dto] shows the file URL of the stored book [b] and, when the owner
    row is found, the owner's email. *)
Definition exposes_book (db : Db) (b : Book.t) (dto : BookDto.t) : Prop :=
  BookDto.Id dto = Book.Id b /\
  BookDto.FileUrl dto = Book.FileUrl b /\
  match BookRepository.find_user db (Book.UserId b) with
  | Some u => exists v, BookDto.User dto = Some v /\ UserDto.Email v = User.Email u
  | None => BookDto.User dto = None
  end.

Definition exposes (db : Db) (dto : BookDto.t) : Prop :=
  exists b, In b (Books db) /\ exposes_book db b dto.

End Props.

(* ------------------------------------------------------------------ *)
(** ** BookRepository.GetCategoriesAsync *)

Module Categories.
Section Collation.
(** [ORDER BY category] compares with the database collation, left
    abstract as a boolean "sorts before or equal". *)
Variable leb : string -> string -> bool.

Fixpoint insert_by (c : string) (l : list string) : list string :=
  match l with
  | [] => [c]
  | x :: r => if leb c x then c :: x :: r else x :: insert_by c r
  end.

Definition OrderBy (l : list string) : list string := fold_right insert_by [] l.

(** [.Select(b => b.Category).Distinct().OrderBy(c => c)]. *)
Definition GetCategoriesAsync (db : Db) : list string :=
  OrderBy (nodup string_dec (map Book.Category (Books db))).
End Collation.
End Categories.

(* ------------------------------------------------------------------ *)
(** ** FilesController.DeleteFile and System.IO *)

Module FileSystem.
Import FilesController.


(** [DELETE api/files/delete/{fileType}/{fileName}]. *)
Definition DeleteFile (webRoot fileName fileType : string) (st : Storage)
    : ActionResult string * Storage :=
  if negb (String.eqb fileType "images") && negb (String.eqb fileType "books") then
    (BadRequest "Invalid file type. Must be 'images' or 'books'", st)
  else
    let filePath := PathCombine [webRoot; "uploads"; fileType; fileName] in
    if negb (FileExists st filePath) then (NotFound "File not found", st)
    else (Ok "File deleted successfully", FileDelete st filePath).


End FileSystem.

(* ------------------------------------------------------------------ *)
(** ** AuthController.Register

    The user store behind [IUserRepository] is left abstract (its
    implementation is not part of the sources), as are [BCrypt.HashPassword]
    and the token service. *)

Module Registration.
Import AuthController.
Section Register.
Variable St : Type.
Variable EmailExistsAsync : St -> string -> bool.
(** [None]: [SaveChangesAsync] throws, e.g. on the unique index on
    [Email] ([OnModelCreating]); nothing is stored then. *)
Variable CreateAsync : St -> User.t -> option (User.t * St).
Variable HashPassword : string -> string.
Variable GenerateToken : User.t -> string.

Definition Register (st : St) (newId : Guid) (now : DateTime)
    (email password : string) (fullName : option string)
    : ActionResult AuthResponseDto * St :=
  if EmailExistsAsync st email then
    (BadRequest "User with this email already exists", st)
  else
    let user := User.mk newId (ToLower email) (HashPassword password) fullName now now in
    match CreateAsync st user with
    | None => (StatusCode500 "An error occurred during registration", st)
    | Some (createdUser, st') =>
        (Ok (mkAuth (GenerateToken createdUser)
               (UserDto.mk (User.Id createdUser) (User.Email createdUser)
                  (User.FullName createdUser) (User.CreatedAt createdUser))), st')
    end.
End Register.
End Registration.

(* ------------------------------------------------------------------ *)
(** ** Dashboard.handleFilterChange and apiService.getMyBooks' query *)

Module DashboardFilters.

(** The values the filter inputs produce: a string, or [parseFloat] of
    one (a number or NaN); [undefined] for a cleared key. *)
Inductive JSValue := JSString (s : string) | JSNumber (q : Q) | JSNaN | JSUndefined.

Definition truthy (v : JSValue) : bool :=
  match v with
  | JSString s => negb (String.eqb s "")
  | JSNumber q => negb (Qeq_bool q 0)
  | JSNaN | JSUndefined => false
  end.

Record BookFilters := mkFilters {
  search : JSValue; category : JSValue; minPrice : JSValue; maxPrice : JSValue
}.

Inductive Key := KSearch | KCategory | KMinPrice | KMaxPrice.

Definition set_key (f : BookFilters) (key : Key) (v : JSValue) : BookFilters :=
  match key with
  | KSearch => mkFilters v (category f) (minPrice f) (maxPrice f)
  | KCategory => mkFilters (search f) v (minPrice f) (maxPrice f)
  | KMinPrice => mkFilters (search f) (category f) v (maxPrice f)
  | KMaxPrice => mkFilters (search f) (category f) (minPrice f) v
  end.

(** [setFilters(prev => ({...prev, [key]: value || undefined}))]. *)
Definition handleFilterChange (prev : BookFilters) (key : Key) (value : JSValue) : BookFilters :=
  set_key prev key (if truthy value then value else JSUndefined).

(** The [URLSearchParams] built by [getMyBooks] (and [getBooks]). *)
Definition query_params (f : BookFilters) : list (string * JSValue) :=
  (if truthy (search f) then [("search", search f)] else []) ++
  (if truthy (category f) then [("category", category f)] else []) ++
  (match minPrice f with JSUndefined => [] | v => [("minPrice", v)] end) ++
  (match maxPrice f with JSUndefined => [] | v => [("maxPrice", v)] end).

End DashboardFilters.

(* ------------------------------------------------------------------ *)
(** ** storageService: [split(c).pop()] *)

Module StorageNames.

(** [String.prototype.split] on a one-character separator. *)
Fixpoint split_on (sep : ascii) (s : string) : list string :=
  match s with
  | EmptyString => [""]
  | String c r =>
      if Ascii.eqb c sep then "" :: split_on sep r
      else match split_on sep r with
           | w :: ws => String c w :: ws
           | [] => [String c ""]
           end
  end.

(** [urlParts[urlParts.length - 1]] and [.pop()] on the non-empty result. *)
Definition last_part (parts : list string) : string := last parts "".

Definition extractFileNameFromUrl (url : string) : string := last_part (split_on "/" url).

(** The object name [uploadBookImage] / [uploadBookFile] store under. *)
Definition upload_name (bookId now name : string) : string :=
  bookId ++ "-" ++ now ++ "." ++ last_part (split_on "." name).

End StorageNames.

Module ExtraProps.

(** A total order on strings (by length), for instantiating the collation. *)
Definition length_leb (a b : string) : bool := String.length a <=? String.length b.

(** The order [OrderByDescending(b => b.CreatedAt)] promises. *)
Definition newer_first (a b : Book.t) : Prop := Book.CreatedAt b <= Book.CreatedAt a.


(** The query parameter a dashboard filter key is sent under. *)
Definition key_name (k : DashboardFilters.Key) : string :=
  match k with
  | DashboardFilters.KSearch => "search"
  | DashboardFilters.KCategory => "category"
  | DashboardFilters.KMinPrice => "minPrice"
  | DashboardFilters.KMaxPrice => "maxPrice"
  end.

(** A users table with the unique index on [Email], and an existence check
    comparing e-mails exactly, for instantiating [Register]. *)
Definition table_emails (st : list User.t) : list string := map User.Email st.

Definition table_create (st : list User.t) (u : User.t) : option (User.t * list User.t) :=
  if existsb (String.eqb (User.Email u)) (table_emails st) then None else Some (u, u :: st).

Definition table_email_exists (st : list User.t) (email : string) : bool :=
  existsb (String.eqb email) (table_emails st).

End ExtraProps.

(* ------------------------------------------------------------------ *)
(** ** Lemmas on the repository queries *)

Module RepoFacts.
Import BookRepository FilterSpec.

Lemma In_insert_desc (x b : Book.t) (l : list Book.t) :
  In x (insert_desc b l) <-> x = b \/ In x l.
Proof.
  induction l as [|y r IH]; simpl.
  - intuition congruence.
  - destruct (Book.CreatedAt y <? Book.CreatedAt b); simpl;
      [intuition congruence|].
    rewrite IH. intuition congruence.
Qed.

Lemma In_fold_insert (x : Book.t) (l acc : list Book.t) :
  In x (fold_left (fun acc b => insert_desc b acc) l acc) <-> In x acc \/ In x l.
Proof.
  revert acc. induction l as [|b r IH]; intros acc; simpl.
  - tauto.
  - rewrite IH, In_insert_desc. intuition congruence.
Qed.

Lemma In_OrderByDescending (x : Book.t) (l : list Book.t) :
  In x (OrderByDescending l) <-> In x l.
Proof. unfold OrderByDescending. rewrite In_fold_insert. simpl. tauto. Qed.

Lemma In_include_user (db : Db) (x : Book.t) (u : option User.t) l :
  In (x, u) (include_user db l) <-> In x l /\ u = find_user db (Book.UserId x).
Proof.
  unfold include_user. rewrite in_map_iff. split.
  - intros [y [Heq Hy]]. inversion Heq; subst. auto.
  - intros [Hx ->]. eauto.
Qed.

Lemma In_map_fst_include (db : Db) (x : Book.t) l :
  In x (map fst (include_user db l)) <-> In x l.
Proof.
  unfold include_user. rewrite map_map. simpl. rewrite map_id. tauto.
Qed.

Lemma Qle_bool_iff' (a b : Q) : Qle_bool a b = true <-> (a <= b)%Q.
Proof. apply Qle_bool_iff. Qed.

Lemma search_filter_iff (s : string) (b : Book.t) :
  (Contains (ToLower (Book.Name b)) (ToLower s) ||
   Contains (ToLower (Book.Description b)) (ToLower s)) = true <->
  search_matches s b.
Proof. unfold search_matches. rewrite orb_true_iff. tauto. Qed.

(** The [Where] clauses keep exactly the rows satisfying every non-empty
    field. *)
Lemma In_apply_filters (f : option BookFiltersDto.t) (q : list Book.t) (b : Book.t) :
  In b (apply_filters f q) <-> In b q /\ satisfies_nonempty f b.
Proof.
  unfold satisfies_nonempty, given.
  destruct f as [[s c mn mx p ps]|]; [|simpl; tauto].
  unfold apply_filters, fsearch, fcategory, fmin, fmax; cbn [BookFiltersDto.Search
    BookFiltersDto.Category BookFiltersDto.MinPrice BookFiltersDto.MaxPrice].
  (destruct s as [s|];
    [destruct (IsNullOrEmpty (Some s)) eqn:Hs
    | change (IsNullOrEmpty None) with true]);
  (destruct c as [c|];
    [destruct (IsNullOrEmpty (Some c)) eqn:Hc
    | change (IsNullOrEmpty None) with true]);
  destruct mn as [mn|]; destruct mx as [mx|]; simpl;
  rewrite ?filter_In, ?Qle_bool_iff', ?String.eqb_eq, ?filter_In,
    ?Qle_bool_iff', ?String.eqb_eq, ?filter_In, ?search_filter_iff; tauto.
Qed.

Lemma In_GetAllAsync (db : Db) f (b : Book.t) :
  In b (map fst (GetAllAsync db f)) <-> In b (Books db) /\ satisfies_nonempty f b.
Proof.
  unfold GetAllAsync. rewrite In_map_fst_include, In_OrderByDescending.
  apply In_apply_filters.
Qed.

End RepoFacts.

(* ------------------------------------------------------------------ *)
(** ** C2: [listAll(filter)] *)

Module ListAll.
Import BookRepository FilterSpec RepoFacts.

Lemma satisfies_nonempty_relax (f f' : option BookFiltersDto.t) (b : Book.t) :
  relaxes f' f -> satisfies_nonempty f b -> satisfies_nonempty f' b.
Proof.
  unfold relaxes, satisfies_nonempty.
  intros (Hs & Hc & Hmin & Hmax) (Bs & Bc & Bmin & Bmax).
  repeat split.
  - destruct Hs as [-> | ->]; [exact I | exact Bs].
  - destruct Hc as [-> | ->]; [exact I | exact Bc].
  - destruct Hmin as [-> | (m' & m & -> & Hm & Hle)]; [exact I|].
    rewrite Hm in Bmin. eapply Qle_trans; eassumption.
  - destruct Hmax as [-> | (m' & m & -> & Hm & Hle)]; [exact I|].
    rewrite Hm in Bmax. eapply Qle_trans; eassumption.
Qed.

(** C2 (counterexample): with [category = ""] the filter is given but
    the listing keeps a book whose category is ["Fiction"]. *)
Lemma listAll_empty_category_counterexample :
  ~ (forall (db : Db) (f : option BookFiltersDto.t) (b : Book.t),
       In b (map fst (GetAllAsync db f)) <-> In b (Books db) /\ satisfies f b).
Proof.
  intros H.
  destruct (proj1 (H Samples.db (Some Samples.empty_category_filter) Samples.dune))
    as [_ (_ & Hcat & _)].
  - vm_compute. auto.
  - vm_compute in Hcat. discriminate.
Qed.

(** C2 (amended): [listAll(filter)] returns exactly the stored books that
    satisfy every given predicate, ANDed: search as a case-insensitive
    substring of name or description, category by exact match, inclusive
    price bounds, where an absent, null or empty search or category
    imposes no constraint; relaxing predicates gives a superset. *)
Theorem listAll_filter_semantics (db : Db) (f : option BookFiltersDto.t) :
  (forall b, In b (map fst (GetAllAsync db f)) <->
             In b (Books db) /\ satisfies_nonempty f b) /\
  (forall f', relaxes f' f ->
     incl (map fst (GetAllAsync db f)) (map fst (GetAllAsync db f'))).
Proof.
  split.
  - intros b. apply In_GetAllAsync.
  - intros f' Hrel b Hb.
    apply In_GetAllAsync in Hb as [Hin Hsat].
    apply In_GetAllAsync. split; [exact Hin|].
    exact (satisfies_nonempty_relax f f' b Hrel Hsat).
Qed.

Lemma listAll_filter_semantics_witness :
  relaxes (Some Samples.loose_filter) (Some Samples.fiction_filter) /\
  incl (map fst (GetAllAsync Samples.db (Some Samples.fiction_filter)))
       (map fst (GetAllAsync Samples.db (Some Samples.loose_filter))).
Proof.
  assert (Hrel : relaxes (Some Samples.loose_filter) (Some Samples.fiction_filter)).
  { unfold relaxes; simpl. split; [left; reflexivity|].
    split; [right; reflexivity|]. split; [|left; reflexivity].
    right. exists (1 # 1)%Q, (5 # 1)%Q. split; [reflexivity|].
    split; [reflexivity|]. vm_compute. discriminate. }
  split; [exact Hrel|].
  exact (proj2 (listAll_filter_semantics Samples.db (Some Samples.fiction_filter))
           (Some Samples.loose_filter) Hrel).
Defined.

End ListAll.

(* ------------------------------------------------------------------ *)
(** ** C8: [listByOwner(ownerId, filter)] within [listAll(filter)] *)

Module ListByOwner.
Import BookRepository RepoFacts.

(** C8: every entry returned by [GetByUserIdAsync userId filter] is also
    returned by [GetAllAsync filter] on the same stored population. *)
Theorem listByOwner_subset_listAll (db : Db) (userId : Guid)
    (f : option BookFiltersDto.t) :
  incl (GetByUserIdAsync db userId f) (GetAllAsync db f).
Proof.
  intros [b u] Hin.
  unfold GetByUserIdAsync in Hin. unfold GetAllAsync.
  apply In_include_user in Hin as [Hb Hu].
  apply In_include_user. split; [|exact Hu].
  rewrite In_OrderByDescending, In_apply_filters in *.
  destruct Hb as [Hq Hsat]. split; [|exact Hsat].
  apply filter_In in Hq. tauto.
Qed.

End ListByOwner.

(* ------------------------------------------------------------------ *)
(** ** C1, C4: ownership checks of update and delete *)

Module Ownership.
Import BookRepository BookRepositoryWrite BooksController RepoFacts.

Lemma find_none_of {A} (p : A -> bool) (l : list A) :
  (forall x, In x l -> p x = false) -> find p l = None.
Proof.
  induction l as [|y r IH]; simpl; intros H; [reflexivity|].
  rewrite (H y (or_introl eq_refl)). apply IH. auto.
Qed.

Lemma existsb_false_of {A} (p : A -> bool) (l : list A) :
  (forall x, In x l -> p x = false) -> existsb p l = false.
Proof.
  induction l as [|y r IH]; simpl; intros H; [reflexivity|].
  rewrite (H y (or_introl eq_refl)). apply IH. auto.
Qed.

(** [Id] is the primary key: two rows with one key are one row. *)
Lemma key_unique (l : list Book.t) (x y : Book.t) :
  NoDup (map Book.Id l) -> In x l -> In y l -> Book.Id x = Book.Id y -> x = y.
Proof.
  induction l as [|z r IH]; simpl; [tauto|].
  intros Hnd Hx Hy Heq. inversion Hnd as [|? ? Hnotin Hnd']; subst.
  destruct Hx as [<-|Hx], Hy as [<-|Hy]; auto.
  - exfalso. apply Hnotin. rewrite Heq. apply in_map. exact Hy.
  - exfalso. apply Hnotin. rewrite <- Heq. apply in_map. exact Hx.
Qed.

Lemma no_owned_row (db : Db) (b : Book.t) (r : Guid) :
  NoDup (map Book.Id (Books db)) -> In b (Books db) -> Book.UserId b <> r ->
  forall x, In x (Books db) ->
    ((Book.Id x =? Book.Id b) && (Book.UserId x =? r)) = false.
Proof.
  intros Hnd Hb Hr x Hx.
  destruct (Book.Id x =? Book.Id b) eqn:Hid; [|reflexivity].
  apply Nat.eqb_eq in Hid.
  rewrite (key_unique _ _ _ Hnd Hx Hb Hid). simpl.
  apply Nat.eqb_neq. exact Hr.
Qed.

(** C1: for a stored book [b] and a requester [r] other than its owner,
    [UpdateBook] with any fields answers not-found and leaves the store
    unchanged, and [DeleteAsync] answers [false] and leaves the store
    unchanged; in general both change the store only when a row with the
    requested id owned by the requester exists. *)
Theorem non_owner_update_delete_rejected (db : Db) (now : DateTime)
    (b : Book.t) (r : Guid) (fields : BookInputDto.t) :
  NoDup (map Book.Id (Books db)) -> In b (Books db) -> Book.UserId b <> r ->
  (exists msg, UpdateBook db now r (Book.Id b) fields = (NotFound msg, db)) /\
  GetByIdAsync (snd (UpdateBook db now r (Book.Id b) fields)) (Book.Id b)
    = GetByIdAsync db (Book.Id b) /\
  DeleteAsync db (Book.Id b) r = (false, db) /\
  (forall id r' fields' now',
     snd (UpdateBook db now' r' id fields') <> db ->
     exists x, In x (Books db) /\ Book.Id x = id /\ Book.UserId x = r') /\
  (forall id r',
     fst (DeleteAsync db id r') = true ->
     exists x, In x (Books db) /\ Book.Id x = id /\ Book.UserId x = r').
Proof.
  intros Hnd Hb Hr.
  pose proof (no_owned_row db b r Hnd Hb Hr) as Hnone.
  assert (Hupd : UpdateBook db now r (Book.Id b) fields =
                 (NotFound "Book not found or you don't have permission to update it", db)).
  { unfold UpdateBook, ExistsAsync. rewrite (existsb_false_of _ _ Hnone). reflexivity. }
  split; [eexists; exact Hupd|].
  split; [rewrite Hupd; reflexivity|].
  split; [unfold DeleteAsync; rewrite (find_none_of _ _ Hnone); reflexivity|].
  split.
  - intros id r' fields' now' Hchg.
    unfold UpdateBook in Hchg.
    destruct (ExistsAsync db id r') eqn:Hex; simpl in Hchg; [|congruence].
    unfold ExistsAsync in Hex. apply existsb_exists in Hex as [x [Hx Hp]].
    apply andb_true_iff in Hp as [H1 H2].
    apply Nat.eqb_eq in H1. apply Nat.eqb_eq in H2. eauto.
  - intros id r' Hdel. unfold DeleteAsync in Hdel.
    destruct (find _ _) as [x|] eqn:Hf; simpl in Hdel; [|discriminate].
    apply find_some in Hf as [Hx Hp].
    apply andb_true_iff in Hp as [H1 H2].
    apply Nat.eqb_eq in H1. apply Nat.eqb_eq in H2. eauto.
Qed.

Lemma non_owner_update_delete_rejected_witness :
  NoDup (map Book.Id (Books Samples.db)) /\ In Samples.dune (Books Samples.db) /\
  Book.UserId Samples.dune <> 2 /\
  DeleteAsync Samples.db (Book.Id Samples.dune) 2 = (false, Samples.db).
Proof.
  assert (Hnd : NoDup (map Book.Id (Books Samples.db))).
  { simpl. constructor; [simpl; lia|]. constructor; [simpl; tauto|constructor]. }
  assert (Hin : In Samples.dune (Books Samples.db)) by (simpl; auto).
  assert (Hne : Book.UserId Samples.dune <> 2) by (simpl; lia).
  split; [exact Hnd|]. split; [exact Hin|]. split; [exact Hne|].
  exact (proj1 (proj2 (proj2 (non_owner_update_delete_rejected Samples.db 0
           Samples.dune 2 (Samples.input "X" "Y" "Z" 1) Hnd Hin Hne)))).
Defined.

Lemma In_remove_row (db : Db) (book x : Book.t) :
  In x (Books (remove_row db book)) <-> In x (Books db) /\ Book.Id x <> Book.Id book.
Proof.
  unfold remove_row. simpl. rewrite filter_In, negb_true_iff, Nat.eqb_neq. tauto.
Qed.

(** C4: deleting a book owned by the caller twice gives [true] then
    [false] (and the second call changes nothing), and after the first
    call no listing contains a book with that id. *)
Theorem delete_twice (db : Db) (b : Book.t) :
  In b (Books db) ->
  let '(first, db1) := DeleteAsync db (Book.Id b) (Book.UserId b) in
  first = true /\
  DeleteAsync db1 (Book.Id b) (Book.UserId b) = (false, db1) /\
  (forall f x, In x (map fst (GetAllAsync db1 f)) -> Book.Id x <> Book.Id b).
Proof.
  intros Hb. unfold DeleteAsync.
  destruct (find _ (Books db)) as [x|] eqn:Hf.
  - apply find_some in Hf as [Hx Hp].
    apply andb_true_iff in Hp as [H1 _]. apply Nat.eqb_eq in H1.
    split; [reflexivity|]. split.
    + rewrite find_none_of; [reflexivity|].
      intros y Hy. apply In_remove_row in Hy as [_ Hne].
      destruct (Book.Id y =? Book.Id b) eqn:E; [|reflexivity].
      apply Nat.eqb_eq in E. congruence.
    + intros f y Hy. apply In_GetAllAsync in Hy as [Hy _].
      apply In_remove_row in Hy as [_ Hne]. congruence.
  - exfalso. assert (Hn := find_none _ _ Hf b Hb). simpl in Hn.
    rewrite !Nat.eqb_refl in Hn. discriminate.
Qed.

Lemma delete_twice_witness :
  In Samples.dune (Books Samples.db) /\
  DeleteAsync (remove_row Samples.db Samples.dune) 10 1
    = (false, remove_row Samples.db Samples.dune).
Proof.
  assert (Hin : In Samples.dune (Books Samples.db)) by (simpl; auto).
  split; [exact Hin|].
  pose proof (delete_twice Samples.db Samples.dune Hin) as H.
  simpl in H. destruct H as [_ [H2 _]]. exact H2.
Defined.

End Ownership.

(* ------------------------------------------------------------------ *)
(** ** C3: [create] then [getById] *)

Module CreateRoundTrip.
Import BookRepository BookRepositoryWrite BooksController Props.

Lemma sgn_abs (k : Z) : (Z.sgn k * Z.abs k)%Z = k.
Proof. destruct k; reflexivity. Qed.

(** A price with at most two fraction digits is stored as given. *)
Lemma numeric_10_2_two_digits (p : Q) (k : Z) :
  (p == k # 100)%Q -> numeric_10_2 p = k # 100.
Proof.
  intros Hk. unfold Qeq in Hk. simpl in Hk.
  unfold numeric_10_2. cbv zeta.
  set (d := Z.pos (Qden p)) in *.
  assert (Hd : (0 < d)%Z) by (unfold d; lia).
  assert (Hx : (100 * Qnum p = k * d)%Z) by lia.
  rewrite Hx.
  assert (Hr : ((2 * Z.abs (k * d) + d) / (2 * d) = Z.abs k)%Z).
  { symmetry. apply Z.div_unique_pos with (r := d); [lia|].
    rewrite Z.abs_mul, (Z.abs_eq d) by lia. ring. }
  rewrite Hr, Z.sgn_mul.
  replace (Z.sgn d) with 1%Z by (symmetry; apply Z.sgn_pos; exact Hd).
  rewrite Z.mul_1_r, sgn_abs. reflexivity.
Qed.

Lemma find_app_fresh (id : Guid) (l : list Book.t) (row : Book.t) :
  ~ In id (map Book.Id l) -> Book.Id row = id ->
  find (fun b => Book.Id b =? id) (app l [row]) = Some row.
Proof.
  intros Hfresh Hrow. induction l as [|y r IH]; simpl in *.
  - rewrite Hrow, Nat.eqb_refl. reflexivity.
  - destruct (Book.Id y =? id) eqn:E.
    + apply Nat.eqb_eq in E. tauto.
    + apply IH. tauto.
Qed.

Lemma fresh_not_exists (db : Db) (newId : Guid) :
  ~ In newId (map Book.Id (Books db)) ->
  existsb (fun b => Book.Id b =? newId) (Books db) = false.
Proof.
  intros Hfresh. apply Ownership.existsb_false_of. intros x Hx.
  destruct (Book.Id x =? newId) eqn:E; [|reflexivity].
  apply Nat.eqb_eq in E. exfalso. apply Hfresh. rewrite <- E. apply in_map. exact Hx.
Qed.

Lemma CreateBook_fresh (db : Db) (now : DateTime) (newId userId : Guid)
    (dto : BookInputDto.t) :
  ~ In newId (map Book.Id (Books db)) ->
  exists v,
    CreateBook db now newId userId dto =
      (CreatedAtAction v,
       mkDb (Users db) (app (Books db) [created_row now newId userId dto])) /\
    BookDto.Id v = newId.
Proof.
  intros Hfresh. unfold CreateBook, CreateAsync. simpl.
  rewrite (fresh_not_exists db newId Hfresh). eexists. split; reflexivity.
Qed.

(** C3 (counterexample): a valid price with three fraction digits does
    not come back unchanged: 1.005 is read back as 1.01. *)
Lemma create_price_rounded_counterexample :
  ~ (forall (db : Db) (now : DateTime) (newId userId : Guid) (dto : BookInputDto.t),
       Validation.IsValid dto = true -> ~ In newId (map Book.Id (Books db)) ->
       exists b u,
         GetByIdAsync (snd (CreateBook db now newId userId dto)) newId = Some (b, u) /\
         (Book.Price b == BookInputDto.Price dto)%Q).
Proof.
  intros H.
  destruct (H Samples.db 3 42 1 (Samples.input "Odd" "Math" "Prices" (1005 # 1000)))
    as (b & u & Hget & Hprice).
  - vm_compute. reflexivity.
  - simpl. intuition discriminate.
  - vm_compute in Hget. inversion Hget; subst. vm_compute in Hprice. discriminate.
Qed.

(** C3 (amended): after [CreateBook] with a fresh id, [GetByIdAsync] on
    the returned id yields a row whose name, category, description,
    imageUrl, fileUrl, fileName and fileSize are the supplied ones, whose
    owner is the requester, and whose price is the supplied price rounded
    half away from zero to two fraction digits (so equal to it when it
    has at most two). *)
Theorem create_getById_roundtrip (db : Db) (now : DateTime) (newId userId : Guid)
    (dto : BookInputDto.t) :
  ~ In newId (map Book.Id (Books db)) ->
  let '(res, db') := CreateBook db now newId userId dto in
  (exists v, res = CreatedAtAction v /\ BookDto.Id v = newId) /\
  exists b u,
    GetByIdAsync db' newId = Some (b, u) /\
    Book.Name b = BookInputDto.Name dto /\
    Book.Category b = BookInputDto.Category dto /\
    Book.Description b = BookInputDto.Description dto /\
    Book.ImageUrl b = BookInputDto.ImageUrl dto /\
    Book.FileUrl b = BookInputDto.FileUrl dto /\
    Book.FileName b = BookInputDto.FileName dto /\
    Book.FileSize b = BookInputDto.FileSize dto /\
    Book.UserId b = userId /\
    Book.Price b = numeric_10_2 (BookInputDto.Price dto) /\
    (forall k, (BookInputDto.Price dto == k # 100)%Q ->
               (Book.Price b == BookInputDto.Price dto)%Q).
Proof.
  intros Hfresh.
  destruct (CreateBook_fresh db now newId userId dto Hfresh) as (v & -> & Hv).
  split; [eauto|].
  exists (created_row now newId userId dto),
    (find_user (mkDb (Users db) (app (Books db) [created_row now newId userId dto])) userId).
  unfold GetByIdAsync. simpl Books.
  rewrite (find_app_fresh newId (Books db) (created_row now newId userId dto) Hfresh eq_refl).
  repeat split.
  intros k Hk. simpl. rewrite (numeric_10_2_two_digits _ k Hk). symmetry. exact Hk.
Qed.

Lemma create_getById_roundtrip_witness :
  ~ In 42 (map Book.Id (Books Samples.db)) /\
  GetByIdAsync
    (snd (CreateBook Samples.db 3 42 1 (Samples.input "Odd" "Math" "Prices" (1234 # 100))))
    42 <> None.
Proof.
  assert (Hfresh : ~ In 42 (map Book.Id (Books Samples.db))) by (simpl; intuition discriminate).
  split; [exact Hfresh|].
  pose proof (create_getById_roundtrip Samples.db 3 42 1
                (Samples.input "Odd" "Math" "Prices" (1234 # 100)) Hfresh) as H.
  destruct (CreateBook _ _ _ _ _) as [res db'].
  destruct H as [_ (b & u & Hget & _)]. simpl. rewrite Hget. discriminate.
Defined.

End CreateRoundTrip.

(* ------------------------------------------------------------------ *)
(** ** C5: dashboard statistics *)

Module Stats.
Import BookRepository BooksController Dashboard.

Lemma set_of_acc (xs acc : list string) :
  NoDup acc ->
  NoDup (fold_left (fun acc x => if existsb (String.eqb x) acc then acc else app acc [x])
           xs acc) /\
  (forall c, In c (fold_left (fun acc x => if existsb (String.eqb x) acc then acc
                                           else app acc [x]) xs acc)
             <-> In c acc \/ In c xs).
Proof.
  revert acc. induction xs as [|x r IH]; intros acc Hnd; simpl.
  - split; [exact Hnd|]. tauto.
  - destruct (existsb (String.eqb x) acc) eqn:E.
    + apply existsb_exists in E as [y [Hy Hxy]]. apply String.eqb_eq in Hxy. subst y.
      destruct (IH acc Hnd) as [H1 H2]. split; [exact H1|].
      intros c. rewrite H2. intuition congruence.
    + assert (Hnd' : NoDup (app acc [x])).
      { apply NoDup_app; [exact Hnd | constructor; [tauto|constructor] |].
        intros y Hy Hy'. destruct Hy' as [Hxy|[]]. subst y.
        assert (Hx := existsb_exists (String.eqb x) acc).
        rewrite E in Hx. apply Bool.diff_false_true, Hx.
        exists x. split; [exact Hy | apply String.eqb_refl]. }
      destruct (IH _ Hnd') as [H1 H2]. split; [exact H1|].
      intros c. rewrite H2, in_app_iff. simpl. intuition congruence.
Qed.

Lemma set_of_spec (xs : list string) :
  NoDup (set_of xs) /\ (forall c, In c (set_of xs) <-> In c xs).
Proof.
  destruct (set_of_acc xs [] (NoDup_nil _)) as [H1 H2].
  split; [exact H1|]. intros c. unfold set_of. rewrite H2. simpl. tauto.
Qed.

Lemma fold_map_price (l : list (Book.t * option User.t)) (a : PrimFloat.float) :
  fold_left (fun sum book => PrimFloat.add sum (to_number (BookDto.Price book)))
    (map MapToDto l) a =
  fold_left (fun sum b => PrimFloat.add sum (to_number (Book.Price b))) (map fst l) a.
Proof.
  revert a. induction l as [|[b u] r IH]; intros a; simpl; [reflexivity|]. apply IH.
Qed.

(** The empty query string binds a filter object that restricts nothing. *)
Lemma GetByUserIdAsync_default (db : Db) (userId : Guid) :
  GetByUserIdAsync db userId (Some BookFiltersDto.default) =
  GetByUserIdAsync db userId None.
Proof. reflexivity. Qed.

(** C5 (counterexample): the total value is not the sum of the prices:
    for two books priced 0.10 and 0.20 the dashboard adds the doubles
    nearest to them and gets 0.30000000000000004, not the number 0.3. *)
Lemma loadStats_float_sum_counterexample :
  ~ (forall (db : Db) (userId : Guid),
       totalValue (loadStats db userId) =
       to_number (fold_right (fun b acc => Book.Price b + acc)%Q 0%Q
                    (map fst (GetByUserIdAsync db userId None)))).
Proof.
  intros H. specialize (H Samples.cents_db 1%nat).
  apply (f_equal (fun x => PrimFloat.eqb x (to_number (3 # 10)))) in H.
  vm_compute in H. discriminate H.
Qed.

(** C5 (amended): the dashboard statistics for [userId] are the number
    of books of [GetByUserIdAsync userId] without filter, the JavaScript
    sum of their prices (each read as the nearest double, added from 0 in
    the listing's order, newest first) and the number of distinct
    categories among them. *)
Theorem loadStats_from_listByOwner (db : Db) (userId : Guid) :
  let owned := map fst (GetByUserIdAsync db userId None) in
  let s := loadStats db userId in
  totalBooks s = length owned /\
  totalValue s =
    fold_left (fun sum b => PrimFloat.add sum (to_number (Book.Price b))) owned PrimFloat.zero /\
  exists categories,
    NoDup categories /\
    (forall c, In c categories <-> exists b, In b owned /\ Book.Category b = c) /\
    categoriesCount s = length categories.
Proof.
  cbv zeta. unfold loadStats, getMyBooks, GetMyBooks.
  rewrite GetByUserIdAsync_default.
  set (l := GetByUserIdAsync db userId None).
  cbn [totalValue totalBooks categoriesCount].
  split; [rewrite !length_map; reflexivity|].
  split.
  - apply fold_map_price.
  - destruct (set_of_spec (map BookDto.Category (map MapToDto l))) as [Hnd Hin].
    exists (set_of (map BookDto.Category (map MapToDto l))).
    split; [exact Hnd|]. split; [|reflexivity].
    intros c. rewrite Hin, map_map, in_map_iff. split.
    + intros [[b u] [Hc Hp]]. exists b. split; [|exact Hc].
      apply in_map_iff. exists (b, u). auto.
    + intros [b [Hb Hc]]. apply in_map_iff in Hb as [[b' u] [Hb' Hp]].
      simpl in Hb'. subst b'. exists (b, u). auto.
Qed.

End Stats.

(* ------------------------------------------------------------------ *)
(** ** C6: upload validation *)

Module UploadChecks.
Import FilesController Props.

Lemma contains_string_false (l : list string) (s : string) :
  ~ In s l -> contains_string l s = false.
Proof.
  intros Hn. unfold contains_string.
  destruct (existsb (String.eqb s) l) eqn:E; [|reflexivity].
  apply existsb_exists in E as [y [Hy Hsy]]. apply String.eqb_eq in Hsy. subst. tauto.
Qed.

Lemma Upload_rejects (k : Kind) : (0 < maxSize k)%Z -> rejects_in_order k.
Proof.
  intros Hpos webRoot origin bookId userId newGuid timestamp st.
  split; [reflexivity|]. split; [reflexivity|]. split.
  - intros [len name] Hlen. simpl in Hlen. unfold Upload. simpl.
    replace (len =? 0)%Z with false by (symmetry; apply Z.eqb_neq; lia).
    replace (len >? maxSize k)%Z with true by (symmetry; apply Z.gtb_lt; lia).
    reflexivity.
  - intros [len name] Hlen Hext. simpl in Hlen, Hext. unfold Upload. simpl.
    replace (len =? 0)%Z with false by (symmetry; apply Z.eqb_neq; lia).
    replace (len >? maxSize k)%Z with false by (symmetry; rewrite Z.gtb_ltb; apply Z.ltb_ge; lia).
    rewrite (contains_string_false _ _ Hext). reflexivity.
Qed.

(** C6: image and book-file uploads reject an empty or missing payload,
    then a size above the cap (5 MiB for images, 100 MiB for book files),
    then a lower-cased extension outside the allow-list
    (.jpg .jpeg .png .gif .webp; .pdf .epub .docx .doc .txt .mobi .azw3),
    in that order, each time without writing to storage. *)
Theorem upload_rejections :
  rejects_in_order ImageKind /\ rejects_in_order BookKind /\
  maxSize ImageKind = (5 * 1024 * 1024)%Z /\ maxSize BookKind = (100 * 1024 * 1024)%Z /\
  allowed ImageKind = [".jpg"; ".jpeg"; ".png"; ".gif"; ".webp"] /\
  allowed BookKind = [".pdf"; ".epub"; ".docx"; ".doc"; ".txt"; ".mobi"; ".azw3"].
Proof.
  split; [apply Upload_rejects; reflexivity|].
  split; [apply Upload_rejects; reflexivity|].
  repeat split.
Qed.

End UploadChecks.

(* ------------------------------------------------------------------ *)
(** ** C7: login failures are indistinguishable *)

Module LoginChecks.
Import AuthController Props.

(** C7: for any user store, password check and token service, a login
    whose email is unknown and a login whose password does not verify
    both answer the same [BadRequest "Invalid email or password"]. *)
Theorem login_failures_identical
    (GetByEmailAsync : string -> option User.t) (Verify : string -> string -> bool)
    (GenerateToken : User.t -> string) (email1 password1 email2 password2 : string) :
  login_rejected GetByEmailAsync Verify email1 password1 ->
  login_rejected GetByEmailAsync Verify email2 password2 ->
  Login GetByEmailAsync Verify GenerateToken email1 password1
    = BadRequest "Invalid email or password" /\
  Login GetByEmailAsync Verify GenerateToken email1 password1
    = Login GetByEmailAsync Verify GenerateToken email2 password2.
Proof.
  assert (H : forall e p, login_rejected GetByEmailAsync Verify e p ->
            Login GetByEmailAsync Verify GenerateToken e p
              = BadRequest "Invalid email or password").
  { intros e p. unfold login_rejected, Login.
    destruct (GetByEmailAsync e) as [u|]; [|reflexivity].
    intros ->. reflexivity. }
  intros H1 H2. rewrite (H _ _ H1), (H _ _ H2). split; reflexivity.
Qed.

Lemma login_failures_identical_witness :
  Login sample_store sample_verify (fun _ => "t") "alice@x.com" "wrong"
    = Login sample_store sample_verify (fun _ => "t") "unknown@x.com" "secret1".
Proof.
  apply (login_failures_identical sample_store sample_verify (fun _ => "t")
           "alice@x.com" "wrong" "unknown@x.com" "secret1");
    vm_compute; reflexivity.
Defined.

End LoginChecks.

(* ------------------------------------------------------------------ *)
(** ** C9: validation of book input *)

Module ValidationChecks.
Import Validation Props.

(** C9 (counterexample): the description is bounded too: a 1001
    character description is rejected although everything else is
    valid, while 1000 characters pass. *)
Lemma description_bounded_counterexample :
  ~ (forall dto : BookInputDto.t,
       Required (BookInputDto.Name dto) = true ->
       MaxLength 255 (BookInputDto.Name dto) = true ->
       Required (BookInputDto.Category dto) = true ->
       MaxLength 100 (BookInputDto.Category dto) = true ->
       Range 0 (9999999 # 100) (BookInputDto.Price dto) = true ->
       Required (BookInputDto.Description dto) = true ->
       IsValid dto = true).
Proof.
  intros H.
  assert (Hv : IsValid (with_description (Samples.repeat_char 1001 "a")) = true)
    by (apply H; vm_compute; reflexivity).
  vm_compute in Hv. discriminate.
Qed.

(** C9 (amended): a create or update input with a blank (empty or white
    space only) name, category or description, or a name over 255,
    a category over 100 or a description over 1000 characters, is
    rejected with a validation error before the action runs, and the
    store is left unchanged. *)
Theorem invalid_input_rejected (db : Db) (now : DateTime) (newId userId id : Guid)
    (dto : BookInputDto.t) :
  violates dto ->
  IsValid dto = false /\
  PostBook db now newId userId dto = (BadRequest validation_problem, db) /\
  PutBook db now userId id dto = (BadRequest validation_problem, db).
Proof.
  intros Hv.
  assert (Hf : IsValid dto = false).
  { unfold IsValid.
    destruct Hv as [H|[H|[H|[H|[H|H]]]]]; rewrite H;
      rewrite ?andb_false_r; reflexivity. }
  unfold PostBook, PutBook, invoke. rewrite Hf. auto.
Qed.

Lemma invalid_input_rejected_witness :
  violates (with_description (Samples.repeat_char 1001 "a")) /\
  PostBook Samples.db 0 42 1 (with_description (Samples.repeat_char 1001 "a"))
    = (BadRequest validation_problem, Samples.db).
Proof.
  assert (Hv : violates (with_description (Samples.repeat_char 1001 "a"))).
  { unfold violates. right; right; right; right; right. vm_compute. reflexivity. }
  split; [exact Hv|].
  exact (proj1 (proj2 (invalid_input_rejected Samples.db 0 42 1 10 _ Hv))).
Defined.

End ValidationChecks.

(* ------------------------------------------------------------------ *)
(** ** C10: what the public book views show *)

Module PublicViews.
Import BookRepository BooksController RepoFacts Props.

Lemma MapToDto_exposes (db : Db) (b : Book.t) :
  exposes_book db b (MapToDto (b, find_user db (Book.UserId b))).
Proof.
  unfold exposes_book. simpl. split; [reflexivity|]. split; [reflexivity|].
  destruct (find_user db (Book.UserId b)) as [u|]; simpl; eauto.
Qed.

Lemma In_GetAllAsync_entry (db : Db) f (b : Book.t) (u : option User.t) :
  In (b, u) (GetAllAsync db f) ->
  In b (Books db) /\ u = find_user db (Book.UserId b).
Proof.
  intros H. unfold GetAllAsync in H.
  apply In_include_user in H as [Hb Hu].
  rewrite In_OrderByDescending, In_apply_filters in Hb. tauto.
Qed.

(** C10: [GetAllBooks] and [GetBook] carry no [[Authorize]]; every book
    view either returns shows the book's file URL and, when the owner
    row is found, a nested user view with the owner's email; and the
    unfiltered listing has such a view for every stored book. *)
Theorem public_views_expose_owner_email (db : Db) (filters : BookFiltersDto.t)
    (id : Guid) :
  requires_authorization GetAllBooksA = false /\
  requires_authorization GetBookA = false /\
  match GetAllBooks db filters with
  | Ok dtos => Forall (exposes db) dtos
  | _ => False
  end /\
  match GetBook db id with
  | Ok dto => exposes db dto
  | NotFound _ => True
  | _ => False
  end /\
  match GetAllBooks db BookFiltersDto.default with
  | Ok dtos => Forall (fun b => exists dto, In dto dtos /\ exposes_book db b dto) (Books db)
  | _ => False
  end.
Proof.
  split; [reflexivity|]. split; [reflexivity|]. split; [|split].
  - unfold GetAllBooks. apply Forall_forall. intros dto Hdto.
    apply in_map_iff in Hdto as [[b u] [<- Hin]].
    apply In_GetAllAsync_entry in Hin as [Hb ->].
    exists b. split; [exact Hb | apply MapToDto_exposes].
  - unfold GetBook, GetByIdAsync.
    destruct (find _ (Books db)) as [b|] eqn:Hf; [|exact I].
    apply find_some in Hf as [Hb _].
    exists b. split; [exact Hb | apply MapToDto_exposes].
  - unfold GetAllBooks. apply Forall_forall. intros b Hb.
    exists (MapToDto (b, find_user db (Book.UserId b))).
    split; [|apply MapToDto_exposes].
    apply in_map. unfold GetAllAsync. apply In_include_user.
    split; [|reflexivity].
    rewrite In_OrderByDescending, In_apply_filters.
    split; [exact Hb|]. unfold FilterSpec.satisfies_nonempty. simpl. tauto.
Qed.

End PublicViews.

(* ================================================================== *)
(** * Further properties of the repository and controllers *)

Module CategoryFacts.
Import Categories ExtraProps.

Lemma insert_by_perm (leb : string -> string -> bool) (c : string) (l : list string) :
  Permutation (insert_by leb c l) (c :: l).
Proof.
  induction l as [|x r IH]; simpl; [reflexivity|].
  destruct (leb c x); [reflexivity|].
  eapply perm_trans; [apply perm_skip, IH | apply perm_swap].
Qed.

Lemma OrderBy_perm (leb : string -> string -> bool) (l : list string) :
  Permutation (OrderBy leb l) l.
Proof.
  induction l as [|x r IH]; simpl; [reflexivity|].
  eapply perm_trans; [apply insert_by_perm | apply perm_skip, IH].
Qed.

Section Total.
Variable leb : string -> string -> bool.
Hypothesis leb_total : forall a b, leb a b = true \/ leb b a = true.

Lemma insert_by_hd (x c : string) (l : list string) :
  HdRel (fun a b => leb a b = true) x l -> (fun a b => leb a b = true) x c -> HdRel (fun a b => leb a b = true) x (insert_by leb c l).
Proof.
  intros Hhd Hxc. destruct l as [|y r]; simpl.
  - constructor. exact Hxc.
  - destruct (leb c y); constructor; [exact Hxc|]. inversion Hhd; assumption.
Qed.

Lemma insert_by_sorted (c : string) (l : list string) :
  Sorted (fun a b => leb a b = true) l -> Sorted (fun a b => leb a b = true) (insert_by leb c l).
Proof.
  induction l as [|x r IH]; simpl; intros Hs.
  - repeat constructor.
  - destruct (leb c x) eqn:E.
    + constructor; [exact Hs | constructor; exact E].
    + inversion Hs as [|? ? Hr Hhd]; subst. constructor; [apply IH, Hr|].
      apply insert_by_hd; [exact Hhd|].
      destruct (leb_total c x) as [H|H]; [congruence | exact H].
Qed.

Lemma OrderBy_sorted (l : list string) : Sorted (fun a b => leb a b = true) (OrderBy leb l).
Proof.
  induction l as [|x r IH]; simpl; [constructor|]. apply insert_by_sorted, IH.
Qed.
End Total.

(** [GetCategoriesAsync] lists every category of a stored book, and
    nothing else, once each, whatever the collation. *)
Theorem GetCategoriesAsync_distinct_complete (leb : string -> string -> bool) (db : Db) :
  NoDup (GetCategoriesAsync leb db) /\
  (forall c, In c (GetCategoriesAsync leb db) <->
             exists b, In b (Books db) /\ Book.Category b = c).
Proof.
  unfold GetCategoriesAsync. split.
  - eapply Permutation_NoDup; [symmetry; apply OrderBy_perm | apply NoDup_nodup].
  - intros c. split.
    + intros H. apply (Permutation_in _ (OrderBy_perm _ _)), nodup_In, in_map_iff in H.
      destruct H as [b [Hc Hb]]. eauto.
    + intros [b [Hb Hc]]. apply (Permutation_in _ (Permutation_sym (OrderBy_perm _ _))).
      apply nodup_In, in_map_iff. eauto.
Qed.

(** Under a total collation the categories come out in ascending order. *)
Theorem GetCategoriesAsync_sorted (leb : string -> string -> bool) (db : Db) :
  (forall a b, leb a b = true \/ leb b a = true) ->
  Sorted (fun a b => leb a b = true) (GetCategoriesAsync leb db).
Proof. intros Htot. apply OrderBy_sorted, Htot. Qed.

Lemma GetCategoriesAsync_sorted_witness :
  (forall a b, length_leb a b = true \/ length_leb b a = true) /\
  Sorted (fun a b => length_leb a b = true) (GetCategoriesAsync length_leb Samples.db).
Proof.
  assert (Htot : forall a b, length_leb a b = true \/ length_leb b a = true).
  { intros a b. unfold length_leb. rewrite !Nat.leb_le. lia. }
  split; [exact Htot|]. exact (GetCategoriesAsync_sorted length_leb Samples.db Htot).
Defined.

End CategoryFacts.

Module ListingOrder.
Import BookRepository RepoFacts ExtraProps.

Lemma insert_desc_hd (x b : Book.t) (l : list Book.t) :
  HdRel newer_first x l -> newer_first x b -> HdRel newer_first x (insert_desc b l).
Proof.
  intros Hhd Hxb. destruct l as [|y r]; simpl.
  - constructor. exact Hxb.
  - destruct (Book.CreatedAt y <? Book.CreatedAt b); constructor; [exact Hxb|].
    inversion Hhd; assumption.
Qed.

Lemma insert_desc_sorted (b : Book.t) (l : list Book.t) :
  Sorted newer_first l -> Sorted newer_first (insert_desc b l).
Proof.
  induction l as [|x r IH]; simpl; intros Hs.
  - repeat constructor.
  - destruct (Book.CreatedAt x <? Book.CreatedAt b) eqn:E.
    + apply Nat.ltb_lt in E. constructor; [exact Hs|]. constructor.
      unfold newer_first. lia.
    + apply Nat.ltb_ge in E. inversion Hs as [|? ? Hr Hhd]; subst.
      constructor; [apply IH, Hr|]. apply insert_desc_hd; [exact Hhd|].
      unfold newer_first. exact E.
Qed.

Lemma OrderByDescending_sorted (l : list Book.t) :
  Sorted newer_first (OrderByDescending l).
Proof.
  unfold OrderByDescending.
  assert (H : forall acc, Sorted newer_first acc ->
            Sorted newer_first (fold_left (fun acc b => insert_desc b acc) l acc)).
  { induction l as [|b r IH]; simpl; intros acc Hacc; [exact Hacc|].
    apply IH, insert_desc_sorted, Hacc. }
  apply H. constructor.
Qed.

(** Both listings come out newest first. *)
Theorem listings_newest_first (db : Db) (userId : Guid) (f : option BookFiltersDto.t) :
  Sorted newer_first (map fst (GetAllAsync db f)) /\
  Sorted newer_first (map fst (GetByUserIdAsync db userId f)).
Proof.
  unfold GetAllAsync, GetByUserIdAsync, include_user.
  rewrite !map_map. simpl. rewrite !map_id.
  split; apply OrderByDescending_sorted.
Qed.

(** [GetByUserIdAsync userId filter] holds exactly the caller's stored books
    that pass the filter. *)
Theorem GetByUserIdAsync_exact (db : Db) (userId : Guid) (f : option BookFiltersDto.t)
    (b : Book.t) :
  In b (map fst (GetByUserIdAsync db userId f)) <->
  In b (Books db) /\ Book.UserId b = userId /\ FilterSpec.satisfies_nonempty f b.
Proof.
  unfold GetByUserIdAsync. rewrite In_map_fst_include, In_OrderByDescending,
    In_apply_filters, filter_In, Nat.eqb_eq. tauto.
Qed.

End ListingOrder.

Module OwnerWrites.
Import BookRepository BookRepositoryWrite BooksController RepoFacts ExtraProps.






(** A delete by the owner of a stored book answers [NoContent] and removes
    exactly the rows with that id. *)
Theorem DeleteBook_owner (db : Db) (b : Book.t) :
  In b (Books db) ->
  let (res, db') := DeleteBook db (Book.UserId b) (Book.Id b) in
  res = NoContent /\ Users db' = Users db /\
  (forall x, In x (Books db') <-> In x (Books db) /\ Book.Id x <> Book.Id b).
Proof.
  intros Hb. unfold DeleteBook, DeleteAsync.
  destruct (find (fun x => (Book.Id x =? Book.Id b) && (Book.UserId x =? Book.UserId b))
              (Books db)) as [y|] eqn:E.
  - apply find_some in E as [_ Hy]. apply andb_true_iff in Hy as [Hy _].
    apply Nat.eqb_eq in Hy. cbn -[remove_row]. split; [reflexivity|]. split; [reflexivity|].
    intros x. rewrite Ownership.In_remove_row, Hy. tauto.
  - exfalso. pose proof (find_none _ _ E b Hb) as H. simpl in H.
    rewrite !Nat.eqb_refl in H. discriminate.
Qed.

Lemma DeleteBook_owner_witness :
  In Samples.emma (Books Samples.db) /\
  (let (res, db') := DeleteBook Samples.db (Book.UserId Samples.emma) (Book.Id Samples.emma) in
   res = NoContent /\ Users db' = Users Samples.db /\
   (forall x, In x (Books db') <->
      In x (Books Samples.db) /\ Book.Id x <> Book.Id Samples.emma)).
Proof.
  assert (Hin : In Samples.emma (Books Samples.db)) by (simpl; auto).
  split; [exact Hin | exact (DeleteBook_owner Samples.db Samples.emma Hin)].
Defined.

(** [GetBook id] answers not-found exactly when no stored book has that
    id; otherwise it shows the stored row with that id and its owner. *)
Theorem GetBook_found_iff (db : Db) (id : Guid) :
  (GetBook db id = NotFound "Book not found" <->
   ~ exists b, In b (Books db) /\ Book.Id b = id) /\
  (forall v, GetBook db id = Ok v ->
   exists b, In b (Books db) /\ Book.Id b = id /\
             v = MapToDto (b, find_user db (Book.UserId b))).
Proof.
  unfold GetBook, GetByIdAsync.
  destruct (find (fun b => Book.Id b =? id) (Books db)) as [x|] eqn:E.
  - apply find_some in E as [Hx Hid]. apply Nat.eqb_eq in Hid. split.
    + split; [discriminate|]. intros H. exfalso. apply H. eauto.
    + intros v Hv. injection Hv as <-. eauto.
  - split.
    + split; [|reflexivity]. intros _ [b [Hb Hid]].
      pose proof (find_none _ _ E b Hb) as H. simpl in H.
      rewrite Hid, Nat.eqb_refl in H. discriminate.
    + discriminate.
Qed.

End OwnerWrites.

Module FileFacts.
Import FilesController FileSystem.

Lemma list_ascii_app (a b : string) :
  list_ascii_of_string (a ++ b) = app (list_ascii_of_string a) (list_ascii_of_string b).
Proof. induction a as [|c r IH]; simpl; [reflexivity|]. rewrite IH. reflexivity. Qed.

Lemma fold_push_rev (l : list ascii) (acc : string) :
  fold_left (fun a c => String c a) (rev l) acc = string_of_list_ascii l ++ acc.
Proof.
  revert acc. induction l as [|c r IH]; simpl; intros acc; [reflexivity|].
  rewrite fold_left_app, IH. reflexivity.
Qed.

Lemma string_app_empty_r (a : string) : a ++ "" = a.
Proof. induction a as [|c r IH]; simpl; [reflexivity|]. rewrite IH. reflexivity. Qed.

Lemma ext_rev_plain (m rest : list ascii) (acc : string) :
  (forall c, In c m -> c <> "."%char /\ c <> "/"%char) ->
  ext_rev (app m rest) acc = ext_rev rest (fold_left (fun a c => String c a) m acc).
Proof.
  revert acc. induction m as [|c r IH]; simpl; intros acc Hm; [reflexivity|].
  destruct (Hm c (or_introl eq_refl)) as [Hdot Hsl].
  destruct (Ascii.eqb_spec c "."%char); [contradiction|].
  destruct (Ascii.eqb_spec c "/"%char); [contradiction|].
  apply IH. intros x Hx. apply Hm. right. exact Hx.
Qed.

Lemma ext_rev_nodot (m : list ascii) (acc : string) :
  (forall c, In c m -> c <> "."%char) -> ext_rev m acc = "".
Proof.
  revert acc. induction m as [|c r IH]; simpl; intros acc Hm; [reflexivity|].
  destruct (Ascii.eqb_spec c "."%char) as [E|_]; [exfalso; exact (Hm c (or_introl eq_refl) E)|].
  destruct (Ascii.eqb c "/"%char); [reflexivity|].
  apply IH. intros x Hx. apply Hm. right. exact Hx.
Qed.

(** [Path.GetExtension] of [base.e] is [.e] when [e] is a non-empty last
    component free of dots, whatever dots [base] contains. *)
Theorem GetExtension_last_dot (base e : string) :
  e <> "" ->
  (forall c, In c (list_ascii_of_string e) -> c <> "."%char /\ c <> "/"%char) ->
  GetExtension (base ++ "." ++ e) = "." ++ e.
Proof.
  intros Hne He. unfold GetExtension.
  rewrite list_ascii_app. simpl list_ascii_of_string at 2.
  rewrite rev_app_distr. simpl rev at 1. rewrite <- app_assoc.
  rewrite ext_rev_plain.
  - rewrite fold_push_rev, string_of_list_ascii_of_string, string_app_empty_r. simpl.
    destruct e; [contradiction | reflexivity].
  - intros c Hc. apply He. apply in_rev. exact Hc.
Qed.

Lemma GetExtension_last_dot_witness :
  "pdf" <> "" /\
  (forall c, In c (list_ascii_of_string "pdf") -> c <> "."%char /\ c <> "/"%char) /\
  GetExtension ("my.book" ++ "." ++ "pdf") = "." ++ "pdf".
Proof.
  assert (H1 : "pdf" <> "") by discriminate.
  assert (H2 : forall c, In c (list_ascii_of_string "pdf") -> c <> "."%char /\ c <> "/"%char).
  { simpl. intros c Hc. repeat destruct Hc as [<-|Hc]; [split; discriminate ..|contradiction]. }
  split; [exact H1|]. split; [exact H2|]. exact (GetExtension_last_dot "my.book" "pdf" H1 H2).
Defined.

(** A file whose name has no dot has no extension, so both upload actions
    refuse it as being of the wrong type (once its size is acceptable). *)
Theorem dotless_name_rejected (k : Kind) (webRoot origin name : string) (len : Z)
    (bookId : option string) (userId : option Guid) (newGuid timestamp : string)
    (st : Storage) :
  k = ImageKind \/ k = BookKind ->
  (0 < len <= maxSize k)%Z ->
  (forall c, In c (list_ascii_of_string name) -> c <> "."%char) ->
  Upload k webRoot origin (Some (mkFile len name)) bookId userId newGuid timestamp st
    = (BadRequest (typeMessage k), st).
Proof.
  intros Hk Hlen Hname. unfold Upload. simpl Length. simpl FileName.
  replace (len =? 0)%Z with false by (symmetry; apply Z.eqb_neq; lia).
  replace (len >? maxSize k)%Z with false by (symmetry; rewrite Z.gtb_ltb; apply Z.ltb_ge; lia).
  assert (Hext : GetExtension name = "").
  { unfold GetExtension. apply ext_rev_nodot. intros c Hc. apply Hname, in_rev, Hc. }
  rewrite Hext. destruct Hk as [-> | ->]; reflexivity.
Qed.

Lemma dotless_name_rejected_witness :
  Upload ImageKind "/srv/www" "https://h" (Some (mkFile 2048 "README")) None (Some 1)
    "g" "20240101000000" [] = (BadRequest (typeMessage ImageKind), []).
Proof.
  apply dotless_name_rejected.
  - left. reflexivity.
  - unfold maxSize, ImageKind, MaxImageSize. lia.
  - simpl. intros c Hc. repeat destruct Hc as [<-|Hc]; [discriminate ..|contradiction].
Defined.


Lemma FileExists_FileDelete (st : Storage) (p : string) :
  FileExists (FileDelete st p) p = false.
Proof.
  unfold FileExists, FileDelete. induction st as [|e r IH]; simpl; [reflexivity|].
  destruct (String.eqb (fst e) p) eqn:E; simpl; [exact IH|]. rewrite E. exact IH.
Qed.

Lemma In_FileDelete (st : Storage) (p : string) (e : string * Z) :
  In e (FileDelete st p) <-> In e st /\ fst e <> p.
Proof.
  unfold FileDelete. rewrite filter_In, negb_true_iff, String.eqb_neq. tauto.
Qed.

(** [DeleteFile] either refuses the file type, or finds no file at
    [webRoot/uploads/fileType/fileName] and changes nothing, or deletes
    exactly the file at that path. *)
Theorem DeleteFile_outcomes (webRoot fileName fileType : string) (st : Storage) :
  let path := PathCombine [webRoot; "uploads"; fileType; fileName] in
  let (res, st') := DeleteFile webRoot fileName fileType st in
  (fileType <> "images" /\ fileType <> "books" /\
   res = BadRequest "Invalid file type. Must be 'images' or 'books'" /\ st' = st) \/
  ((fileType = "images" \/ fileType = "books") /\ FileExists st path = false /\
   res = NotFound "File not found" /\ st' = st) \/
  ((fileType = "images" \/ fileType = "books") /\ FileExists st path = true /\
   res = Ok "File deleted successfully" /\ FileExists st' path = false /\
   (forall e, In e st' <-> In e st /\ fst e <> path)).
Proof.
  cbv zeta. unfold DeleteFile.
  set (path := PathCombine [webRoot; "uploads"; fileType; fileName]).
  destruct (String.eqb_spec fileType "images") as [Hi|Hi];
  destruct (String.eqb_spec fileType "books") as [Hb|Hb]; simpl negb; cbv beta iota zeta.
  all: try (left; split; [exact Hi|]; split; [exact Hb|]; split; reflexivity).
  all: assert (Ht : fileType = "images" \/ fileType = "books") by tauto.
  all: fold path; destruct (FileExists st path) eqn:E; simpl negb; cbv iota.
  all: try (right; left; split; [exact Ht|]; split; [reflexivity|]; split; reflexivity).
  all: right; right; split; [exact Ht|]; split; [reflexivity|]; split; [reflexivity|].
  all: split; [apply FileExists_FileDelete | intros e; apply In_FileDelete].
Qed.



(** An upload that passes the three checks but whose token carries no
    usable user id ends in a 500 before anything is written. *)
Theorem upload_without_user (k : Kind) (webRoot origin : string) (f : IFormFile)
    (bookId : option string) (newGuid timestamp : string) (st : Storage) :
  (0 < Length f <= maxSize k)%Z ->
  In (ToLower (GetExtension (FileName f))) (allowed k) ->
  Upload k webRoot origin (Some f) bookId None newGuid timestamp st
    = (StatusCode500 (errorMessage k), st).
Proof.
  intros Hlen Hext. unfold Upload.
  replace (Length f =? 0)%Z with false by (symmetry; apply Z.eqb_neq; lia).
  replace (Length f >? maxSize k)%Z with false
    by (symmetry; rewrite Z.gtb_ltb; apply Z.ltb_ge; lia).
  replace (contains_string (allowed k) (ToLower (GetExtension (FileName f)))) with true
    by (symmetry; apply existsb_exists; eexists; split; [exact Hext | apply String.eqb_refl]).
  reflexivity.
Qed.

Lemma upload_without_user_witness :
  Upload BookKind "/srv/www" "https://h" (Some (mkFile 100 "novel.epub")) None None "g" "t" []
    = (StatusCode500 (errorMessage BookKind), []).
Proof.
  apply upload_without_user.
  - simpl. unfold MaxBookSize. lia.
  - vm_compute. right; left. reflexivity.
Defined.



End FileFacts.

Module RegisterFacts.
Import AuthController Registration ExtraProps.

(** For any existence check, a user store whose inserts respect the
    unique index on [Email] keeps e-mails unique through [Register]:
    either nothing is stored and the answer is not [Ok], or the answer is
    [Ok] and exactly the lower-cased e-mail is added.  An e-mail whose
    lower-cased form is already stored but which the check misses (e.g. a
    differently cased duplicate) ends in the 500 and stores nothing. *)
Theorem Register_email_unique (St : Type) (EmailExistsAsync : St -> string -> bool)
    (CreateAsync : St -> User.t -> option (User.t * St)) (HashPassword : string -> string)
    (GenerateToken : User.t -> string) (emails : St -> list string) :
  (forall st u, In (User.Email u) (emails st) -> CreateAsync st u = None) ->
  (forall st u c st', CreateAsync st u = Some (c, st') -> emails st' = User.Email u :: emails st) ->
  forall (st : St) (newId : Guid) (now : DateTime) (email password : string)
         (fullName : option string),
  NoDup (emails st) ->
  let (res, st') := Register St EmailExistsAsync CreateAsync HashPassword GenerateToken
                      st newId now email password fullName in
  NoDup (emails st') /\
  ((st' = st /\ forall r, res <> Ok r) \/
   ((exists r, res = Ok r) /\ emails st' = ToLower email :: emails st)) /\
  (In (ToLower email) (emails st) -> EmailExistsAsync st email = false ->
   res = StatusCode500 "An error occurred during registration" /\ st' = st).
Proof.
  intros Hidx Hadd st newId now email password fullName Hnd. unfold Register.
  destruct (EmailExistsAsync st email) eqn:E.
  - split; [exact Hnd|]. split; [left; split; [reflexivity | intros r; discriminate]|].
    intros _ H. discriminate H.
  - set (u := User.mk newId (ToLower email) (HashPassword password) fullName now now).
    destruct (CreateAsync st u) as [[c st']|] eqn:C.
    + pose proof (Hadd _ _ _ _ C) as He. simpl in He.
      assert (Hnotin : ~ In (ToLower email) (emails st)).
      { intros Hin. rewrite (Hidx st u Hin) in C. discriminate C. }
      split; [rewrite He; constructor; assumption|].
      split; [right; split; [eexists; reflexivity | exact He]|].
      intros Hin. contradiction.
    + split; [exact Hnd|]. split; [left; split; [reflexivity | intros r; discriminate]|].
      intros _ _. split; reflexivity.
Qed.

Lemma Register_email_unique_witness :
  (forall st u, In (User.Email u) (table_emails st) -> table_create st u = None) /\
  (forall st u c st', table_create st u = Some (c, st') ->
     table_emails st' = User.Email u :: table_emails st) /\
  NoDup (table_emails [Samples.alice]) /\
  (let (res, st') := Register (list User.t) table_email_exists table_create
                       (fun p => "hash:" ++ p) User.Email
                       [Samples.alice] 3 9 "Alice@X.com" "pw" None in
   NoDup (table_emails st') /\
   ((st' = [Samples.alice] /\ forall r, res <> Ok r) \/
    ((exists r, res = Ok r) /\
     table_emails st' = ToLower "Alice@X.com" :: table_emails [Samples.alice])) /\
   (In (ToLower "Alice@X.com") (table_emails [Samples.alice]) ->
    table_email_exists [Samples.alice] "Alice@X.com" = false ->
    res = StatusCode500 "An error occurred during registration" /\ st' = [Samples.alice])).
Proof.
  assert (Hidx : forall st u, In (User.Email u) (table_emails st) -> table_create st u = None).
  { intros st u Hin. unfold table_create.
    replace (existsb (String.eqb (User.Email u)) (table_emails st)) with true; [reflexivity|].
    symmetry. apply existsb_exists. exists (User.Email u). split; [exact Hin | apply String.eqb_refl]. }
  assert (Hadd : forall st u c st', table_create st u = Some (c, st') ->
            table_emails st' = User.Email u :: table_emails st).
  { intros st u c st'. unfold table_create.
    destruct (existsb _ _); [discriminate|]. intros H. injection H as _ <-. reflexivity. }
  assert (Hnd : NoDup (table_emails [Samples.alice])) by (repeat constructor; simpl; tauto).
  split; [exact Hidx|]. split; [exact Hadd|]. split; [exact Hnd|].
  exact (Register_email_unique (list User.t) table_email_exists table_create
           (fun p => "hash:" ++ p) User.Email table_emails Hidx Hadd
           [Samples.alice] 3 9 "Alice@X.com" "pw" None Hnd).
Defined.

End RegisterFacts.

Module FilterParams.
Import DashboardFilters ExtraProps.

Lemma In_query_params (f : BookFilters) (n : string) (w : JSValue) :
  In (n, w) (query_params f) <->
  (n = "search" /\ truthy (search f) = true /\ w = search f) \/
  (n = "category" /\ truthy (category f) = true /\ w = category f) \/
  (n = "minPrice" /\ minPrice f <> JSUndefined /\ w = minPrice f) \/
  (n = "maxPrice" /\ maxPrice f <> JSUndefined /\ w = maxPrice f).
Proof.
  destruct f as [s c mn mx]. unfold query_params. simpl.
  rewrite !in_app_iff.
  destruct (truthy s), (truthy c);
  destruct mn; destruct mx; simpl; intuition congruence.
Qed.

(** A filter change is sent to the API exactly when its value is truthy:
    an empty text, a minimum or maximum price of 0, or NaN clears the key
    and no parameter is sent for it; the other keys' parameters do not
    change. *)
Theorem handleFilterChange_params (prev : BookFilters) (key : Key) (v : JSValue) :
  (forall w, In (key_name key, w) (query_params (handleFilterChange prev key v)) <->
             truthy v = true /\ w = v) /\
  (forall key' w, key' <> key ->
     In (key_name key', w) (query_params (handleFilterChange prev key v)) <->
     In (key_name key', w) (query_params prev)).
Proof.
  assert (Hv : truthy v = true -> v <> JSUndefined) by (intros H ->; discriminate).
  split.
  - intros w. rewrite In_query_params.
    destruct key; unfold handleFilterChange, set_key; simpl;
    destruct (truthy v) eqn:T; simpl; try specialize (Hv eq_refl); intuition congruence.
  - intros key' w Hk. rewrite !In_query_params.
    destruct key, key'; try congruence; unfold handleFilterChange, set_key; simpl;
    intuition congruence.
Qed.

End FilterParams.

Module NameParts.
Import StorageNames.

Lemma split_on_nonempty (sep : ascii) (s : string) : split_on sep s <> [].
Proof.
  destruct s as [|c r]; simpl; [discriminate|].
  destruct (Ascii.eqb c sep); [discriminate|]. destruct (split_on sep r); discriminate.
Qed.

Lemma split_on_no_sep (sep : ascii) (s : string) :
  ~ In sep (list_ascii_of_string s) -> split_on sep s = [s].
Proof.
  induction s as [|c r IH]; simpl; intros H; [reflexivity|].
  destruct (Ascii.eqb_spec c sep) as [E|_]; [subst; tauto|].
  rewrite IH by tauto. reflexivity.
Qed.

Lemma split_on_app_sep (sep : ascii) (a n : string) :
  split_on sep (a ++ String sep n) = app (split_on sep a) (split_on sep n).
Proof.
  induction a as [|c r IH]; simpl.
  - rewrite Ascii.eqb_refl. reflexivity.
  - rewrite IH. destruct (Ascii.eqb c sep); [reflexivity|].
    destruct (split_on sep r) as [|w ws] eqn:E; [exfalso; exact (split_on_nonempty sep r E)|].
    reflexivity.
Qed.

Lemma last_part_after_sep (sep : ascii) (a n : string) :
  ~ In sep (list_ascii_of_string n) -> last_part (split_on sep (a ++ String sep n)) = n.
Proof.
  intros Hn. unfold last_part. rewrite split_on_app_sep, (split_on_no_sep sep n Hn).
  apply last_last.
Qed.

(** [extractFileNameFromUrl] gives the text after the last ['/'] of the URL. *)
Theorem extractFileNameFromUrl_last_segment (prefix name : string) :
  ~ In "/"%char (list_ascii_of_string name) ->
  extractFileNameFromUrl (prefix ++ "/" ++ name) = name.
Proof. apply last_part_after_sep. Qed.

Lemma extractFileNameFromUrl_last_segment_witness :
  ~ In "/"%char (list_ascii_of_string "cover.png") /\
  extractFileNameFromUrl ("https://x.supabase.co/storage/v1/object/public/book-images/b1"
                          ++ "/" ++ "cover.png") = "cover.png".
Proof.
  assert (H : ~ In "/"%char (list_ascii_of_string "cover.png")).
  { simpl. intros Hc. repeat destruct Hc as [Hc|Hc]; discriminate || contradiction. }
  split; [exact H | exact (extractFileNameFromUrl_last_segment _ "cover.png" H)].
Defined.

(** The name the storage service uploads under keeps the text after the
    last ['.'] of the original name; a name without a dot is kept whole
    as the "extension". *)
Theorem upload_name_extension (bookId now base e name : string) :
  ~ In "."%char (list_ascii_of_string e) ->
  ~ In "."%char (list_ascii_of_string name) ->
  upload_name bookId now (base ++ "." ++ e) = bookId ++ "-" ++ now ++ "." ++ e /\
  upload_name bookId now name = bookId ++ "-" ++ now ++ "." ++ name.
Proof.
  intros He Hn. unfold upload_name. split.
  - rewrite (last_part_after_sep "."%char base e He
               : last_part (split_on "." (base ++ "." ++ e)) = e). reflexivity.
  - rewrite (split_on_no_sep "."%char name Hn). reflexivity.
Qed.

Lemma upload_name_extension_witness :
  ~ In "."%char (list_ascii_of_string "pdf") /\
  ~ In "."%char (list_ascii_of_string "README") /\
  upload_name "b1" "99" ("my.book" ++ "." ++ "pdf") = "b1" ++ "-" ++ "99" ++ "." ++ "pdf" /\
  upload_name "b1" "99" "README" = "b1" ++ "-" ++ "99" ++ "." ++ "README".
Proof.
  assert (H1 : ~ In "."%char (list_ascii_of_string "pdf")).
  { simpl. intros Hc. repeat destruct Hc as [Hc|Hc]; discriminate || contradiction. }
  assert (H2 : ~ In "."%char (list_ascii_of_string "README")).
  { simpl. intros Hc. repeat destruct Hc as [Hc|Hc]; discriminate || contradiction. }
  split; [exact H1|]. split; [exact H2|].
  exact (upload_name_extension "b1" "99" "my.book" "pdf" "README" H1 H2).
Defined.

End NameParts.

Module CreateThenList.
Import BookRepository BooksController RepoFacts Props.



End CreateThenList.
